(** * Proforma invoice generator: normalisation, aggregation and composition

    A shallow embedding of the three application variants of the repository
    ([3app.py], [6app.py], [7app.py]) and the properties of the specification
    that are settled against them.

    Conventions of the embedding.
    - Python numbers are [Py.num]: an [Int] carries an integer, a [Float]
      carries an exact rational.  Binary floating-point rounding is outside
      the model: sums and products are exact.
    - A missing value (pandas [NaN]/[None]) is [None].
    - Code that can raise returns a [Py.result].
    - Strings are byte strings; comparison is lexicographic on bytes, which
      agrees with Python's code-point order on UTF-8 text.
    - A document is modelled by its computed parts (metadata lines, table
      rows, totals row, total line, footer total); the fixed supplier,
      consignee and bank text and the page layout are left out.
    - The clock ([datetime.now()]) and the words engine ([num2words]) are
      explicit inputs of the functions that use them. *)

From Stdlib Require Import String Ascii List Bool ZArith QArith Qabs Lia.
From Stdlib Require Import Sorted Permutation DecimalString OrderedTypeEx.
Import ListNotations.

Open Scope string_scope.

(* ===================================================================== *)
(** ** Python values, exceptions and string formatting                    *)
(* ===================================================================== *)

Module Py.

(** Exceptions that the modelled code paths can raise. *)
Inductive exn : Type :=
| KeyError (label : string)
| ValueError (msg : string)
| EngineFault.

Inductive result (A : Type) : Type :=
| Ok (a : A)
| Raised (e : exn).
Arguments Ok {A} a.
Arguments Raised {A} e.

Definition bind {A B : Type} (c : result A) (k : A -> result B) : result B :=
  match c with
  | Ok a => k a
  | Raised e => Raised e
  end.

(** [try: body / except: handler] with a bare [except]. *)
Definition try_except {A : Type} (body : result A) (handler : result A) : result A :=
  match body with
  | Ok a => Ok a
  | Raised _ => handler
  end.

(** Numbers: the two numeric kinds a spreadsheet cell can hold. *)
Inductive num : Type :=
| Int (z : Z)
| Float (q : Q).

Definition value (n : num) : Q :=
  match n with
  | Int z => inject_Z z
  | Float q => q
  end.

Definition is_int (n : num) : bool :=
  match n with Int _ => true | Float _ => false end.

Definition add (a b : num) : num :=
  match a, b with
  | Int x, Int y => Int (x + y)
  | _, _ => Float (value a + value b)
  end.

Definition mul (a b : num) : num :=
  match a, b with
  | Int x, Int y => Int (x * y)
  | _, _ => Float (value a * value b)
  end.

(** [x == 0] and [x > 0]. *)
Definition eq0 (a : num) : bool := Qeq_bool (value a) 0.
Definition gt0 (a : num) : bool := negb (Qle_bool (value a) 0).

(** [int(x)]: truncation towards zero. *)
Definition int (a : num) : Z :=
  match a with
  | Int z => z
  | Float q => Z.quot (Qnum q) (Zpos (Qden q))
  end.

(** *** Decimal rendering *)

Definition digits (n : Z) : string :=
  NilZero.string_of_uint (N.to_uint (Z.to_N n)).

(** Commas every three digits, counted from the right. *)
Fixpoint group_rev (l : list ascii) (i : nat) : list ascii :=
  match l with
  | [] => []
  | c :: l' =>
      if Nat.eqb i 3 then ","%char :: c :: group_rev l' 1
      else c :: group_rev l' (S i)
  end.

Definition group_thousands (s : string) : string :=
  string_of_list_ascii (rev (group_rev (rev (list_ascii_of_string s)) 0)).

(** [f"{z:,}"] for an integer. *)
Definition format_int_comma (z : Z) : string :=
  (if z <? 0 then "-" else "")%Z ++ group_thousands (digits (Z.abs z)).

(** Nearest integer, ties to even, of a non-negative rational. *)
Definition round_half_even (q : Q) : Z :=
  let n := Qnum q in
  let d := Zpos (Qden q) in
  let fl := (n / d)%Z in
  let r := (n mod d)%Z in
  match (2 * r ?= d)%Z with
  | Lt => fl
  | Gt => (fl + 1)%Z
  | Eq => if Z.even fl then fl else (fl + 1)%Z
  end.

Definition hundredths (q : Q) : Z := round_half_even (Qabs q * 100).

Definition two_digits (n : Z) : string :=
  (if n <? 10 then "0" else "")%Z ++ digits n.

Definition sign_of (q : Q) : string :=
  if Qle_bool 0 q then "" else "-".

(** [f"{x:.2f}"]. *)
Definition format_2f (q : Q) : string :=
  let m := hundredths q in
  sign_of q ++ digits (m / 100) ++ "." ++ two_digits (m mod 100).

(** [f"{x:,.2f}"]. *)
Definition format_comma_2f (q : Q) : string :=
  let m := hundredths q in
  sign_of q ++ group_thousands (digits (m / 100)) ++ "." ++ two_digits (m mod 100).

(** *** String operations *)

(** The line feed of a Python string literal. *)
Definition nl : string := String (ascii_of_nat 10) EmptyString.

Definition upper_char (c : ascii) : ascii :=
  let n := nat_of_ascii c in
  if (Nat.leb 97 n && Nat.leb n 122)%bool then ascii_of_nat (n - 32) else c.

(** [s.upper()] on ASCII text. *)
Fixpoint upper (s : string) : string :=
  match s with
  | EmptyString => EmptyString
  | String c s' => String (upper_char c) (upper s')
  end.

(** [sub in s]. *)
Fixpoint contains (sub s : string) : bool :=
  match s with
  | EmptyString => prefix sub EmptyString
  | String _ s' => (prefix sub s || contains sub s')%bool
  end.

(** [s.replace(old, new)] for a non-empty [old]: [skip] counts the bytes of
    a match that are still to be dropped. *)
Fixpoint replace_from (skip : nat) (old new s : string) : string :=
  match s with
  | EmptyString => EmptyString
  | String c s' =>
      match skip with
      | S k => replace_from k old new s'
      | O =>
          if prefix old s
          then new ++ replace_from (String.length old - 1) old new s'
          else String c (replace_from 0 old new s')
      end
  end.

Definition replace (old new s : string) : string := replace_from 0 old new s.

End Py.

(* ===================================================================== *)
(** ** The part of pandas the applications use                            *)
(* ===================================================================== *)

Module Pandas.
Import Py.

(** One row of a frame, indexed by column label.  A column is read either
    as text ([text]: the labels [Style], [StyleID], [Description], ...) or as
    a number ([num]: quantities, prices, values); [None] is a missing cell. *)
Record Row : Type := mkRow {
  text : string -> option string;
  num : string -> option num
}.

Record DataFrame : Type := mkDF {
  columns : list string;
  rows : list Row
}.

Definition has_column (df : DataFrame) (c : string) : bool :=
  existsb (String.eqb c) (columns df).

Definition notna {A : Type} (o : option A) : bool :=
  match o with Some _ => true | None => false end.

(** [df.dropna(subset=[c])] for a text column [c]: rows whose cell [c] is
    missing are removed; an unknown label is a [KeyError]. *)
Definition dropna (c : string) (df : DataFrame) : result DataFrame :=
  if has_column df c
  then Ok (mkDF (columns df) (filter (fun r => notna (text r c)) (rows df)))
  else Raised (KeyError c).

(** [df.rename(columns={old: new})].  The frame is taken not to carry
    both [old] and [new]: pandas would then hold two columns of one label. *)
Definition rename_label (old new c : string) : string :=
  if String.eqb c old then new else c.

Definition rename_row (old new : string) (r : Row) : Row :=
  if String.eqb old new then r else
  mkRow (fun c => if String.eqb c new then text r old
                  else if String.eqb c old then None else text r c)
        (fun c => if String.eqb c new then num r old
                  else if String.eqb c old then None else num r c).

Definition rename (old new : string) (df : DataFrame) : DataFrame :=
  mkDF (map (rename_label old new) (columns df))
       (map (rename_row old new) (rows df)).

(** [df[c] = v] for a text constant [v]. *)
Definition assign_text (c v : string) (df : DataFrame) : DataFrame :=
  mkDF (if has_column df c then columns df else columns df ++ [c])
       (map (fun r => mkRow (fun c' => if String.eqb c' c then Some v else text r c')
                            (fun c' => if String.eqb c' c then None else num r c'))
            (rows df)).

(** *** Column reductions *)

Definition is_int_cell (o : option Py.num) : bool :=
  match o with Some (Int _) => true | _ => false end.

(** An integer column holds integers only; a missing cell or a float makes
    the column a float column.  A column without cells sums to the integer
    0, as the empty column of a sheet without rows does. *)
Definition int_dtype (cells : list (option Py.num)) : bool := forallb is_int_cell cells.

(** Sum of the integer parts of a column. *)
Fixpoint sum_ints (cells : list (option Py.num)) : Z :=
  match cells with
  | [] => 0
  | Some n :: l => (int n + sum_ints l)%Z
  | None :: l => sum_ints l
  end.

(** Sum of a column, missing cells skipped. *)
Fixpoint sum_values (cells : list (option Py.num)) : Q :=
  match cells with
  | [] => 0
  | Some n :: l => value n + sum_values l
  | None :: l => sum_values l
  end.

Definition sum_as (as_int : bool) (cells : list (option Py.num)) : Py.num :=
  if as_int then Int (sum_ints cells) else Float (sum_values cells).

(** [df[c].sum()]. *)
Definition column (c : string) (df : DataFrame) : list (option Py.num) :=
  map (fun r => num r c) (rows df).

Definition column_sum (c : string) (df : DataFrame) : Py.num :=
  sum_as (int_dtype (column c df)) (column c df).

(** The aggregation ['first']: the first value of the group that is not
    missing. *)
Fixpoint first_valid {A : Type} (cells : list (option A)) : option A :=
  match cells with
  | [] => None
  | Some a :: _ => Some a
  | None :: l => first_valid l
  end.

(** *** groupby *)

Inductive aggfn : Type := first | sum.

Fixpoint lookup_agg (c : string) (spec : list (string * aggfn)) : option aggfn :=
  match spec with
  | [] => None
  | (c', f) :: spec' => if String.eqb c c' then Some f else lookup_agg c spec'
  end.

(** Group keys are sorted ([groupby] is called with its default
    [sort=True]) and each key appears once. *)
Fixpoint insert_key (k : string) (l : list string) : list string :=
  match l with
  | [] => [k]
  | x :: l' =>
      match String.compare k x with
      | Lt => k :: l
      | Eq => l
      | Gt => x :: insert_key k l'
      end
  end.

Definition sorted_unique (l : list string) : list string :=
  fold_right insert_key [] l.

(** Keys of the rows; rows with a missing key belong to no group
    ([dropna=True], the default). *)
Fixpoint keys_of (key : string) (rs : list Row) : list string :=
  match rs with
  | [] => []
  | r :: rs' =>
      match text r key with
      | Some k => k :: keys_of key rs'
      | None => keys_of key rs'
      end
  end.

Definition in_group (key k : string) (r : Row) : bool :=
  match text r key with
  | Some k' => String.eqb k' k
  | None => false
  end.

Definition group (key k : string) (rs : list Row) : list Row :=
  filter (in_group key k) rs.

(** The row of one group after [.agg(spec).reset_index()].  The sum of a
    group has the dtype of the whole column; ['sum'] is applied to numeric
    columns only. *)
Definition agg_row (key : string) (spec : list (string * aggfn))
                   (all : list Row) (k : string) : Row :=
  let g := group key k all in
  mkRow
    (fun c =>
       if String.eqb c key then Some k else
       match lookup_agg c spec with
       | Some first => first_valid (map (fun r => text r c) g)
       | _ => None
       end)
    (fun c =>
       if String.eqb c key then None else
       match lookup_agg c spec with
       | Some first => first_valid (map (fun r => num r c) g)
       | Some sum =>
           Some (sum_as (int_dtype (map (fun r => num r c) all))
                        (map (fun r => num r c) g))
       | None => None
       end).

(** [df.groupby(key).agg(spec).reset_index()]. *)
Definition groupby_agg (key : string) (spec : list (string * aggfn))
                       (df : DataFrame) : result DataFrame :=
  if negb (has_column df key) then Raised (KeyError key) else
  match find (fun p => negb (has_column df (fst p))) spec with
  | Some p => Raised (KeyError (fst p))
  | None =>
      Ok (mkDF (key :: map fst spec)
               (map (agg_row key spec (rows df))
                    (sorted_unique (keys_of key (rows df)))))
  end.

End Pandas.

(* ===================================================================== *)
(** ** 7app.py: the HTML variant                                         *)
(* ===================================================================== *)

Module App7.
Import Py Pandas.

Definition agg_spec : list (string * aggfn) :=
  [("Description", first); ("Composition", first); ("USD Fob$", first);
   ("Total Qty", sum); ("Total Value", sum)].

(** [process_excel_data]: [dropna] on [Style], then group and aggregate. *)
Definition process_excel_data (df : DataFrame) : result DataFrame :=
  bind (dropna "Style" df) (fun df_clean =>
  groupby_agg "Style" agg_spec df_clean).

(** The computed parts of the HTML page; the fixed supplier, consignee and
    bank text of the template is left out. *)
Record Invoice : Type := mkInvoice {
  pi_line : string;
  order_reference : string;
  table_rows : list (list string);
  total_row : list string;
  total_words : string
}.

(** [str(x)] of a text cell; a missing cell prints as [nan]. *)
Definition str_cell (o : option string) : string :=
  match o with Some s => s | None => "nan" end.

(** [f"{float(x):.2f}"] of a numeric cell. *)
Definition float_2f (o : option Py.num) : string :=
  match o with Some n => format_2f (value n) | None => "nan" end.

(** [int(x)] of a numeric cell; [int(nan)] is a [ValueError]. *)
Definition int_cell (o : option Py.num) : result Z :=
  match o with
  | Some n => Ok (int n)
  | None => Raised (ValueError "cannot convert float NaN to integer")
  end.

Definition table_row (r : Row) : result (list string) :=
  bind (int_cell (num r "Total Qty")) (fun qty =>
  Ok [str_cell (text r "Style"); str_cell (text r "Description"); "KNITTED";
      "61112000"; str_cell (text r "Composition"); "India";
      format_int_comma qty; float_2f (num r "USD Fob$");
      float_2f (num r "Total Value")]).

Fixpoint for_rows (rs : list Row) : result (list (list string)) :=
  match rs with
  | [] => Ok []
  | r :: rs' =>
      bind (table_row r) (fun tr =>
      bind (for_rows rs') (fun trs => Ok (tr :: trs)))
  end.

Section Generate.

(** [format(x, ",")] of a Python float: its shortest [repr] with the
    integer part grouped.  The runtime's [repr] is a parameter. *)
Variable format_float_comma : Q -> string.

(** [f"{x:,}"]. *)
Definition format_comma (n : Py.num) : string :=
  match n with
  | Int z => format_int_comma z
  | Float q => format_float_comma q
  end.

Definition generate_html_invoice (df : DataFrame)
    (pi_number date_str cpo_number : string) : result Invoice :=
  bind (process_excel_data df) (fun processed_df =>
  let total_qty := column_sum "Total Qty" processed_df in
  let total_amount := column_sum "Total Value" processed_df in
  bind (for_rows (rows processed_df)) (fun trs =>
  Ok (mkInvoice
        (pi_number ++ " Dt. " ++ date_str)
        cpo_number
        trs
        ["Total"; format_comma total_qty; "";
         format_2f (value total_amount) ++ "USD"]
        ("TOTAL US DOLLAR " ++ format_comma_2f (value total_amount) ++ " DOLLARS")))).

End Generate.

End App7.

(* ===================================================================== *)
(** ** 6app.py: the first PDF variant                                    *)
(* ===================================================================== *)

Module App6.
Import Py Pandas.

(** The same function as in [7app.py]. *)
Definition process_excel_data (df : DataFrame) : result DataFrame :=
  bind (dropna "Style" df) (fun df_clean =>
  groupby_agg "Style" App7.agg_spec df_clean).

Definition table_header : list string :=
  ["STYLE NO."; "ITEM DESCRIPTION";
   "FABRIC TYPE" ++ nl ++ "KNITTED /" ++ nl ++ "WOVEN"; "H.S NO" ++ nl ++ "(8digit)";
   "COMPOSITION OF" ++ nl ++ "MATERIAL"; "COUNTRY OF" ++ nl ++ "ORIGIN"; "QTY";
   "UNIT PRICE" ++ nl ++ "FOB"; "AMOUNT"].

Record Invoice : Type := mkInvoice {
  pi_line : string;
  order_reference : string;
  table_data : list (list string);
  total_words : string
}.

(** State of the row loop: running totals and the rows emitted so far. *)
Record Acc : Type := mkAcc {
  total_qty : Z;
  total_amount : option Py.num;
  body : list (list string)
}.

(** [float(x)] of a numeric cell; [None] is [nan]. *)
Definition float_cell (o : option Py.num) : option Py.num :=
  option_map (fun a => Float (value a)) o.

(** [total += amount], where [nan] absorbs. *)
Definition add_nan (a b : option Py.num) : option Py.num :=
  match a, b with
  | Some x, Some y => Some (add x y)
  | _, _ => None
  end.

Definition step (acc : Acc) (r : Row) : result Acc :=
  bind (App7.int_cell (num r "Total Qty")) (fun qty =>
  let unit_price := float_cell (num r "USD Fob$") in
  let amount := float_cell (num r "Total Value") in
  Ok (mkAcc (total_qty acc + qty)%Z
            (add_nan (total_amount acc) amount)
            (body acc ++
             [[App7.str_cell (text r "Style"); App7.str_cell (text r "Description");
               "KNITTED"; "61112000"; App7.str_cell (text r "Composition"); "India";
               format_int_comma qty; App7.float_2f unit_price;
               App7.float_2f amount]]))).

Fixpoint loop (acc : Acc) (rs : list Row) : result Acc :=
  match rs with
  | [] => Ok acc
  | r :: rs' => bind (step acc r) (fun acc' => loop acc' rs')
  end.

(** The nested helper [number_to_words]. *)
Definition number_to_words (amount : option Py.num) : string :=
  "US DOLLAR " ++
  match amount with Some a => format_comma_2f (value a) | None => "nan" end.

Definition generate_proforma_invoice (df : DataFrame)
    (pi_number date_str cpo_number : string) : result Invoice :=
  bind (process_excel_data df) (fun processed_df =>
  bind (loop (mkAcc 0 (Some (Int 0)) []) (rows processed_df)) (fun acc =>
  Ok (mkInvoice
        (pi_number ++ " Dt. " ++ date_str)
        cpo_number
        (table_header :: body acc ++
         [[""; ""; ""; ""; ""; "Total"; format_int_comma (total_qty acc); "";
           App7.float_2f (total_amount acc) ++ "USD"]])
        ("TOTAL " ++ upper (number_to_words (total_amount acc)) ++ " DOLLARS")))).

End App6.

(* ===================================================================== *)
(** ** 3app.py: the PDF variant with column aliases                      *)
(* ===================================================================== *)

Module App3.
Import Py Pandas.

Definition column_mapping : list (string * string) :=
  [("Style", "StyleID"); ("Description", "Item Description");
   ("Material Composition", "Composition"); ("USD FOB$", "Unit Price");
   ("Total Qty", "Qty"); ("Total Value", "Amount")].

Definition agg_functions : list (string * aggfn) :=
  [("Item Description", first); ("Composition", first); ("Unit Price", first);
   ("Qty", sum); ("Amount", sum)].

Definition required_columns : list (string * string) :=
  [("Fabric Type", "KNITTED"); ("HS Code", "61112000"); ("Country of Origin", "India")].

(** The renaming loop: a mapping entry applies when its source label is a
    column of the frame that was passed in. *)
Definition rename_columns (df : DataFrame) : DataFrame :=
  fold_left (fun acc m => if has_column df (fst m) then rename (fst m) (snd m) acc else acc)
            column_mapping df.

Definition add_defaults (df : DataFrame) : DataFrame :=
  fold_left (fun acc d => if has_column acc (fst d) then acc
                          else assign_text (fst d) (snd d) acc)
            required_columns df.

(** [process_excel_data] returns the frame together with the messages it
    shows through [st.error]. *)
Definition process_excel_data (df : DataFrame) : result (DataFrame * list string) :=
  let df_processed := rename_columns df in
  if has_column df_processed "StyleID" then
    let existing_agg :=
      filter (fun kv => has_column df_processed (fst kv)) agg_functions in
    match existing_agg with
    | [] => Raised (ValueError "No objects to concatenate")
    | _ =>
        bind (groupby_agg "StyleID" existing_agg df_processed) (fun grouped_df =>
        Ok (add_defaults grouped_df, []))
    end
  else Ok (df_processed, ["StyleID column not found in the Excel file"]).

(** The wall clock read by [datetime.now()]. *)
Record datetime : Type := mkDatetime {
  year : Z; month : Z; day : Z; hour : Z; minute : Z; second : Z
}.

(** [strftime('%m%d')] and [strftime('%d-%m-%Y')]. *)
Definition strftime_md (t : datetime) : string :=
  two_digits (month t) ++ two_digits (day t).

Definition strftime_dmY (t : datetime) : string :=
  two_digits (day t) ++ "-" ++ two_digits (month t) ++ "-" ++ digits (year t).

(** [x or d] for an optional text argument: [None] and the empty string
    are falsy. *)
Definition or_default (o : option string) (d : string) : string :=
  match o with
  | Some s => if String.eqb s "" then d else s
  | None => d
  end.

(** A numeric field under its two labels: the first label that is a column
    decides; a missing cell counts as [0]. *)
Definition num_field (df : DataFrame) (r : Row) (a b : string) : Py.num :=
  if has_column df a then match num r a with Some n => n | None => Int 0 end
  else if has_column df b then match num r b with Some n => n | None => Int 0 end
  else Int 0.

Definition text_field (df : DataFrame) (r : Row) (a b : string) : string :=
  if has_column df a then match text r a with Some s => s | None => "" end
  else if has_column df b then match text r b with Some s => s | None => "" end
  else "".

(** [str(row.get(c, d)) if pd.notna(row.get(c, d)) else d]. *)
Definition text_or (df : DataFrame) (r : Row) (c d : string) : string :=
  if has_column df c then match text r c with Some s => s | None => d end
  else d.

(** The amount of a row: computed from quantity and price when it is 0. *)
Definition derive_amount (qty price amount : Py.num) : Py.num :=
  if (eq0 amount && gt0 qty && gt0 price)%bool then mul qty price else amount.

Definition row_qty (df : DataFrame) (r : Row) : Py.num := num_field df r "Qty" "Total Qty".
Definition row_price (df : DataFrame) (r : Row) : Py.num :=
  num_field df r "Unit Price" "USD FOB$".
Definition row_amount (df : DataFrame) (r : Row) : Py.num :=
  derive_amount (row_qty df r) (row_price df r) (num_field df r "Amount" "Total Value").

Definition table_row (df : DataFrame) (r : Row) : list string :=
  let qty := row_qty df r in
  let price := row_price df r in
  let amount := row_amount df r in
  [text_field df r "StyleID" "Style";
   text_field df r "Item Description" "Description";
   text_or df r "Fabric Type" "KNITTED";
   replace "." "" (text_or df r "HS Code" "61112000");
   text_field df r "Composition" "Material Composition";
   text_or df r "Country of Origin" "India";
   if gt0 qty then format_int_comma (int qty) else "";
   if gt0 price then format_2f (value price) else "";
   if gt0 amount then format_2f (value amount) else ""].

(** State of the row loop. *)
Record Acc : Type := mkAcc {
  total_qty : Py.num;
  total_amount : Py.num;
  table_data : list (list string)
}.

Definition step (df : DataFrame) (acc : Acc) (r : Row) : Acc :=
  mkAcc (add (total_qty acc) (row_qty df r))
        (add (total_amount acc) (row_amount df r))
        (table_data acc ++ [table_row df r]).

Definition table_header : list string := App6.table_header.

Definition total_row (total : Py.num) : list string :=
  [""; ""; ""; ""; ""; ""; ""; "Total"; format_2f (value total) ++ "USD"].

Record Invoice : Type := mkInvoice {
  pi_line : string;
  order_reference : string;
  shipment_line : string;
  table : list (list string);
  words_paragraph : string;
  footer_total : string
}.

Section Generate.

(** [num2words.num2words(n, to='currency', currency='USD')]: the conversion
    engine is an external library and may raise. *)
Variable num2words_currency : Z -> result string.

(** The [try]/[except] block that builds [amount_words]. *)
Definition words_body (total : Py.num) : result string :=
  bind (num2words_currency (int total)) (fun w =>
  let amount_words := upper w in
  let amount_words := replace " AND ZERO CENTS" " DOLLARS" amount_words in
  Ok (if (negb (contains "CENTS" amount_words)
          && negb (contains "DOLLARS" amount_words))%bool
      then amount_words ++ " DOLLARS"
      else amount_words)).

Definition words_fallback (total : Py.num) : result string :=
  Ok ("TOTAL AMOUNT: $" ++ format_comma_2f (value total)).

Definition amount_in_words (total : Py.num) : result string :=
  try_except (words_body total) (words_fallback total).

(** [generate_proforma_invoice]: the document, [total_qty], [total_amount]. *)
Definition generate_proforma_invoice (now : datetime) (df : DataFrame)
    (pi_number po_reference shipment_date : option string)
    : result (Invoice * Py.num * Py.num) :=
  let pi_number := or_default pi_number ("SAR/LG/" ++ strftime_md now) in
  let acc := fold_left (step df) (rows df) (mkAcc (Int 0) (Int 0) [table_header]) in
  let table_data := (table_data acc ++ [total_row (total_amount acc)])%list in
  bind (amount_in_words (total_amount acc)) (fun amount_words =>
  Ok (mkInvoice
        (pi_number ++ " Dt. " ++ strftime_dmY now)
        ("Landmark order Reference: " ++ or_default po_reference "CPO/47062/25")
        ("Agreed Shipment Date: " ++ or_default shipment_date "07-02-2025")
        table_data
        ("TOTAL US DOLLAR " ++ amount_words)
        ("Total" ++ nl ++ format_int_comma (int (total_qty acc))),
      total_qty acc, total_amount acc)).

(** The application runs the two steps in sequence. *)
Definition pipeline (now : datetime) (df : DataFrame)
    (pi_number po_reference shipment_date : option string)
    : result (Invoice * Py.num * Py.num) :=
  bind (process_excel_data df) (fun p =>
  generate_proforma_invoice now (fst p) pi_number po_reference shipment_date).

End Generate.

End App3.

(* ===================================================================== *)
(** ** Notions used to state the properties                              *)
(* ===================================================================== *)

Module Notions.
Import Py Pandas.

(** Python's order on strings. *)
Definition str_lt (a b : string) : Prop := String.compare a b = Lt.

(** A record has a style when the cell is present; the specification also
    asks for it to be non-empty. *)
Definition has_style (key : string) (r : Row) : bool := notna (text r key).

Definition has_nonempty_style (key : string) (r : Row) : bool :=
  match text r key with
  | Some s => negb (String.eqb s "")
  | None => false
  end.

(** Sum of a numeric column over a list of rows, missing cells as 0. *)
Definition total (c : string) (rs : list Row) : Q :=
  sum_values (map (fun r => num r c) rs).

(** Value of a numeric cell, a missing cell as 0. *)
Definition cell_value (o : option Py.num) : Q :=
  match o with Some n => value n | None => 0 end.

Fixpoint sum_over {A : Type} (F : A -> Q) (l : list A) : Q :=
  match l with
  | [] => 0
  | a :: l' => F a + sum_over F l'
  end.

(** Position of the first element that satisfies [p]. *)
Fixpoint first_index {A : Type} (p : A -> bool) (l : list A) : option nat :=
  match l with
  | [] => None
  | a :: l' => if p a then Some O else option_map S (first_index p l')
  end.

(** Position of the first record of style [k] in the input and of the row
    of style [k] in the output. *)
Definition first_seen (key k : string) (rs : list Row) : option nat :=
  first_index (in_group key k) rs.

(** The frame without the records whose style cell is missing. *)
Definition drop_missing (key : string) (df : DataFrame) : DataFrame :=
  mkDF (columns df) (filter (has_style key) (rows df)).


Definition frame_rows (res : result DataFrame) : list Row :=
  match res with
  | Ok df => rows df
  | Raised _ => []
  end.

(** Parts of the result of [3app.py]'s composer. *)
Definition table_of (res : result (App3.Invoice * Py.num * Py.num)) : list (list string) :=
  match res with
  | Ok (doc, _, _) => App3.table doc
  | Raised _ => []
  end.




(** Parts of the result of [7app.py]'s composer. *)
Definition rows_of7 (res : result App7.Invoice) : list (list string) :=
  match res with
  | Ok doc => App7.table_rows doc
  | Raised _ => []
  end.

Definition total_row_of7 (res : result App7.Invoice) : list string :=
  match res with
  | Ok doc => App7.total_row doc
  | Raised _ => []
  end.


Definition table_of6 (res : result App6.Invoice) : list (list string) :=
  match res with
  | Ok doc => App6.table_data doc
  | Raised _ => []
  end.

Definition is_digit (c : ascii) : bool :=
  (Nat.leb 48 (nat_of_ascii c) && Nat.leb (nat_of_ascii c) 57)%bool.

Fixpoint all_digits (s : string) : bool :=
  match s with
  | EmptyString => true
  | String c s' => (is_digit c && all_digits s')%bool
  end.


End Notions.

(* ===================================================================== *)
(** ** Sample frames                                                     *)
(* ===================================================================== *)

Module Samples.
Import Py Pandas.

Definition columns7 : list string :=
  ["Style"; "Description"; "Composition"; "USD Fob$"; "Total Qty"; "Total Value"].

Definition record7 (style description : option string) (price : Q) (qty : Z) (amount : Q)
  : Row :=
  mkRow (fun c => if String.eqb c "Style" then style
                  else if String.eqb c "Description" then description
                  else if String.eqb c "Composition" then Some "100% Cotton"
                  else None)
        (fun c => if String.eqb c "USD Fob$" then Some (Float price)
                  else if String.eqb c "Total Qty" then Some (Int qty)
                  else if String.eqb c "Total Value" then Some (Float amount)
                  else None).

(** A record whose style cell holds the empty string. *)
Definition empty_style : DataFrame :=
  mkDF columns7 [record7 (Some "") (Some "Bodysuit") 2 5 10].

(** Style B is seen before style A. *)
Definition b_then_a : DataFrame :=
  mkDF columns7 [record7 (Some "B") (Some "Romper") 2 5 10;
                 record7 (Some "A") (Some "Bodysuit") 3 4 12].


(** Two records of style A with descriptions desc1, desc2. *)
Definition two_descriptions : DataFrame :=
  mkDF columns7 [record7 (Some "A") (Some "desc1") 6 1 6;
                 record7 (Some "A") (Some "desc2") 6 2 12].

(** Two records of style A, the first without a description. *)
Definition late_description : DataFrame :=
  mkDF columns7 [record7 (Some "A") None 6 1 6;
                 record7 (Some "A") (Some "desc2") 6 2 12].

Definition columns3 : list string :=
  ["Style"; "Description"; "Material Composition"; "USD FOB$"; "Total Qty"; "Total Value"].

Definition record3 (style description : option string) (price : Q) (qty : Z)
                   (amount : option Q) : Row :=
  mkRow (fun c => if String.eqb c "Style" then style
                  else if String.eqb c "Description" then description
                  else if String.eqb c "Material Composition" then Some "100% Cotton"
                  else None)
        (fun c => if String.eqb c "USD FOB$" then Some (Float price)
                  else if String.eqb c "Total Qty" then Some (Int qty)
                  else if String.eqb c "Total Value" then option_map Float amount
                  else None).

(** The expected sheet without its value column. *)
Definition columns3_no_value : list string :=
  ["Style"; "Description"; "Material Composition"; "USD FOB$"; "Total Qty"].

(** Quantity 10 at unit price 2.5, no amount field. *)
Definition derived_amount : DataFrame :=
  mkDF columns3_no_value [record3 (Some "B") (Some "Bodysuit") (5 # 2) 10 None].

(** Two records of style A: amount 0 on the first, 100 on the second. *)
Definition split_amount : DataFrame :=
  mkDF columns3 [record3 (Some "A") (Some "Bodysuit") (5 # 2) 10 (Some 0);
                 record3 (Some "A") (Some "Bodysuit") (5 # 2) 1 (Some 100)].

Definition one_style3 : DataFrame :=
  mkDF columns3 [record3 (Some "SAV001S25") (Some "Bodysuit") 6 4107 (Some 24642)].

(** A style whose quantity, price and amount are all 0. *)
Definition zero_quantity : DataFrame :=
  mkDF columns7 [record7 (Some "A") (Some "Bodysuit") 0 0 0].

(** Quantity 10 at unit price 2.5 with amount 0, for [7app.py]. *)
Definition zero_amount7 : DataFrame :=
  mkDF columns7 [record7 (Some "A") (Some "Bodysuit") (5 # 2) 10 0].

Definition zero_record3 : Row := record3 (Some "A") (Some "Bodysuit") 0 0 (Some 0).

Definition one_style7 : DataFrame :=
  mkDF columns7 [record7 (Some "A") (Some "Bodysuit") (5 # 2) 10 25].

Definition morning : App3.datetime := App3.mkDatetime 2026 11 4 9 30 0.



Definition engine_fault : Z -> result string := fun _ => Raised EngineFault.

(** Integer quantity columns never reach the float formatter. *)
Definition float_format_unused : Q -> string := fun _ => "".

Definition missing_style3 : DataFrame :=
  mkDF columns3 [record3 None (Some "Bodysuit") 6 500 (Some 3000);
                 record3 (Some "SAV001S25") (Some "Bodysuit") 6 4107 (Some 24642)].

End Samples.

(* ===================================================================== *)
(** ** The [main] functions: validation, summary and download            *)
(* ===================================================================== *)

(** The computations of the three [main] functions, without the Streamlit
    widgets: the values typed into the widgets are arguments and what is
    shown or offered for download is the result. *)

Module Main7.
Import Py Pandas.

Definition required_columns : list string :=
  ["Style"; "Description"; "Composition"; "USD Fob$"; "Total Qty"; "Total Value"].

(** [[col for col in required_columns if col not in df.columns]]. *)
Definition missing_columns (df : DataFrame) : list string :=
  filter (fun col => negb (has_column df col)) required_columns.

(** What the left column of the page shows for an uploaded sheet: the
    missing columns, or the three metrics, or the error of the [except]
    branch. *)
Inductive Preview : Type :=
| MissingColumns (missing : list string)
| Summary (unique_styles : nat) (total_quantity total_value : string)
| ReadError (e : exn).

(** What the right column does when the button is pressed. *)
Inductive Download : Type :=
| NotOffered
| Offered (file_name : string) (html : App7.Invoice)
| GenerationError (e : exn).

Definition file_name (pi_number date_str : string) : string :=
  "PI_" ++ replace "/" "_" pi_number ++ "_" ++ date_str ++ ".html".

Section Main.

Variable format_float_comma : Q -> string.

Definition preview (df : DataFrame) : Preview :=
  match missing_columns df with
  | [] =>
      match App7.process_excel_data df with
      | Ok processed_df =>
          Summary (length (rows processed_df))
                  (App7.format_comma format_float_comma
                     (column_sum "Total Qty" processed_df))
                  ("$" ++ format_comma_2f (value (column_sum "Total Value" processed_df)))
      | Raised e => ReadError e
      end
  | missing => MissingColumns missing
  end.

Definition generate_button (df : DataFrame) (pi_number : string)
    (invoice_date : App3.datetime) (cpo_number : string) : Download :=
  match missing_columns df with
  | [] =>
      let date_str := App3.strftime_dmY invoice_date in
      match App7.generate_html_invoice format_float_comma df pi_number date_str
                                       cpo_number with
      | Ok html => Offered (file_name pi_number date_str) html
      | Raised e => GenerationError e
      end
  | _ => NotOffered
  end.

End Main.

End Main7.

Module Main6.
Import Py Pandas.

Inductive Download : Type :=
| NotOffered
| Offered (file_name : string) (pdf : App6.Invoice)
| GenerationError (e : exn).

Definition file_name (pi_number date_str : string) : string :=
  "PI_" ++ replace "/" "_" pi_number ++ "_" ++ date_str ++ ".pdf".

(** The button of [6app.py]: the same validation as in [7app.py]. *)
Definition generate_button (df : DataFrame) (pi_number : string)
    (invoice_date : App3.datetime) (cpo_number : string) : Download :=
  match Main7.missing_columns df with
  | [] =>
      let date_str := App3.strftime_dmY invoice_date in
      match App6.generate_proforma_invoice df pi_number date_str cpo_number with
      | Ok pdf => Offered (file_name pi_number date_str) pdf
      | Raised e => GenerationError e
      end
  | _ => NotOffered
  end.

End Main6.

Module Main3.
Import Py Pandas.



(** The metrics shown once the sheet is processed. *)
Record Summary : Type := mkSummary {
  original_items : nat;
  grouped_items : nat;
  total_quantity : string;
  total_amount : string
}.


Definition file_name (now : App3.datetime) (pi_number : string) : string :=
  "PI_" ++ replace "/" "_" pi_number ++ "_" ++ App3.strftime_dmY now.

(** What is shown and offered after the button is pressed. *)
Record Generated : Type := mkGenerated {
  unique_styles : nat;
  quantity : string;
  amount : string;
  download_name : string;
  document : App3.Invoice
}.

Section Main.

Variable num2words_currency : Z -> result string.

Definition generate_button (now : App3.datetime) (df_processed : DataFrame)
    (pi_number po_reference : string) (shipment_date : App3.datetime)
    : result Generated :=
  bind (App3.generate_proforma_invoice num2words_currency now df_processed
          (Some pi_number) (Some po_reference)
          (Some (App3.strftime_dmY shipment_date)))
       (fun res =>
          match res with
          | (pdf, total_qty, total_amount) =>
              Ok (mkGenerated (length (rows df_processed))
                              (format_int_comma (int total_qty))
                              ("$" ++ format_comma_2f (value total_amount))
                              (file_name now pi_number ++ ".pdf")
                              pdf)
          end).

End Main.

End Main3.

(** Notions for the further properties. *)
Module Reading.
Import Py Pandas.

(** The styles of a list of rows, in order. *)
Definition styles (key : string) (rs : list Row) : list (option string) :=
  map (fun r => text r key) rs.

Fixpoint has_char (c : ascii) (s : string) : bool :=
  match s with
  | EmptyString => false
  | String c' s' => (Ascii.eqb c c' || has_char c s')%bool
  end.

(** [s] with every occurrence of [c] replaced by [new]. *)
Fixpoint substitute (c : ascii) (new s : string) : string :=
  match s with
  | EmptyString => EmptyString
  | String c' s' =>
      if Ascii.eqb c c' then new ++ substitute c new s'
      else String c' (substitute c new s')
  end.




End Reading.

(* ===================================================================== *)
(** ** Facts about the pandas operations                                 *)
(* ===================================================================== *)

Module PandasFacts.
Import Py Pandas Notions.

Lemma str_lt_trans (a b c : string) : str_lt a b -> str_lt b c -> str_lt a c.
Proof.
  unfold str_lt. intros Hab Hbc.
  apply String_as_OT.cmp_lt in Hab. apply String_as_OT.cmp_lt in Hbc.
  apply String_as_OT.cmp_lt. eapply String_as_OT.lt_trans; eassumption.
Qed.

Lemma str_lt_irrefl (a : string) : ~ str_lt a a.
Proof.
  unfold str_lt. intros H.
  assert (E : String.compare a a = Eq) by (apply String_as_OT.cmp_eq; reflexivity).
  congruence.
Qed.

Lemma compare_gt_lt (a b : string) : String.compare a b = Gt -> str_lt b a.
Proof.
  unfold str_lt. intros H. rewrite String.compare_antisym. rewrite H. reflexivity.
Qed.

Lemma insert_key_in (k x : string) (l : list string) :
  In x (insert_key k l) <-> x = k \/ In x l.
Proof.
  induction l as [|y l IH]; simpl.
  - intuition.
  - destruct (String.compare k y) eqn:E; simpl.
    + apply String.compare_eq_iff in E. subst. intuition.
    + intuition.
    + rewrite IH. intuition.
Qed.

Lemma insert_key_sorted (k : string) (l : list string) :
  StronglySorted str_lt l -> StronglySorted str_lt (insert_key k l).
Proof.
  induction 1 as [|y l Hs IH Hall]; simpl.
  - constructor; constructor.
  - destruct (String.compare k y) eqn:E.
    + constructor; assumption.
    + constructor.
      * constructor; assumption.
      * constructor; [exact E|].
        eapply Forall_impl; [|exact Hall].
        intros z Hz. eapply str_lt_trans; eassumption.
    + constructor; [exact IH|].
      apply Forall_forall. intros z Hz.
      apply insert_key_in in Hz. destruct Hz as [->|Hz].
      * apply compare_gt_lt; assumption.
      * rewrite Forall_forall in Hall. apply Hall; assumption.
Qed.

Lemma sorted_unique_sorted (l : list string) : StronglySorted str_lt (sorted_unique l).
Proof.
  induction l; simpl.
  - constructor.
  - apply insert_key_sorted; assumption.
Qed.

Lemma sorted_unique_in (x : string) (l : list string) :
  In x (sorted_unique l) <-> In x l.
Proof.
  induction l; simpl.
  - reflexivity.
  - rewrite insert_key_in, IHl. intuition.
Qed.

Lemma sorted_nodup (l : list string) : StronglySorted str_lt l -> NoDup l.
Proof.
  induction 1 as [|y l Hs IH Hall]; constructor; try assumption.
  intros Hin. rewrite Forall_forall in Hall.
  apply (str_lt_irrefl y). apply Hall; assumption.
Qed.

Lemma keys_of_in (key k : string) (rs : list Row) :
  In k (keys_of key rs) <-> exists r, In r rs /\ text r key = Some k.
Proof.
  induction rs as [|r rs IH]; simpl.
  - split; [intros []|intros [r [[] _]]].
  - destruct (text r key) as [k'|] eqn:E; simpl; rewrite ?IH.
    + split.
      * intros [->|[r' [Hin Hk]]]; [exists r|exists r']; auto.
      * intros [r' [[->|Hin] Hk]]; [left; congruence|right; exists r'; auto].
    + split.
      * intros [r' [Hin Hk]]; exists r'; auto.
      * intros [r' [[->|Hin] Hk]]; [congruence|exists r'; auto].
Qed.

(** *** Sums *)

Lemma sum_values_sum_over (cells : list (option Py.num)) :
  sum_values cells == sum_over cell_value cells.
Proof.
  induction cells as [|[n|] l IH]; simpl.
  - reflexivity.
  - rewrite IH. reflexivity.
  - rewrite IH. ring.
Qed.

Lemma sum_over_map {A B : Type} (f : A -> B) (F : B -> Q) (l : list A) :
  sum_over F (map f l) = sum_over (fun a => F (f a)) l.
Proof.
  induction l; simpl; [reflexivity|]. rewrite IHl. reflexivity.
Qed.

Lemma sum_over_ext {A : Type} (F G : A -> Q) (l : list A) :
  (forall a, In a l -> F a == G a) -> sum_over F l == sum_over G l.
Proof.
  induction l as [|a l IH]; simpl; intros H.
  - reflexivity.
  - rewrite (H a) by (left; reflexivity).
    rewrite IH by (intros; apply H; right; assumption).
    reflexivity.
Qed.

Lemma sum_over_plus {A : Type} (F G : A -> Q) (l : list A) :
  sum_over (fun a => F a + G a) l == sum_over F l + sum_over G l.
Proof.
  induction l as [|a l IH]; simpl.
  - ring.
  - rewrite IH. ring.
Qed.

Lemma sum_over_zero {A : Type} (l : list A) : sum_over (fun _ => 0) l == 0.
Proof.
  induction l as [|a l IH]; simpl; [reflexivity|]. rewrite IH. ring.
Qed.

(** A value attached to one key of a duplicate-free list is counted once. *)
Lemma sum_over_single (k0 : string) (x : Q) (ks : list string) :
  NoDup ks -> In k0 ks ->
  sum_over (fun k => if String.eqb k0 k then x else 0) ks == x.
Proof.
  induction 1 as [|k ks Hnin Hnd IH]; simpl; intros Hin.
  - destruct Hin.
  - destruct (String.eqb_spec k0 k) as [->|Hne].
    + rewrite (sum_over_ext _ (fun _ => 0)).
      * rewrite sum_over_zero. ring.
      * intros a Ha. destruct (String.eqb_spec k a) as [->|_]; [contradiction|reflexivity].
    + destruct Hin as [->|Hin]; [congruence|].
      rewrite IH by assumption. ring.
Qed.

Lemma total_cons (c : string) (r : Row) (rs : list Row) :
  total c (r :: rs) == cell_value (num r c) + total c rs.
Proof.
  unfold total. simpl. destruct (num r c); simpl; [reflexivity|ring].
Qed.

(** Grouping by key neither loses nor repeats a row that has a key. *)
Lemma sum_over_groups (key c : string) (ks : list string) (rs : list Row) :
  NoDup ks ->
  (forall k, In k (keys_of key rs) -> In k ks) ->
  sum_over (fun k => total c (group key k rs)) ks
  == total c (filter (has_style key) rs).
Proof.
  intros Hnd. induction rs as [|r rs IH]; intros Hks.
  - simpl. unfold total. simpl. apply sum_over_zero.
  - unfold group, has_style, in_group in *. simpl in *.
    destruct (text r key) as [k0|] eqn:E; simpl.
    + rewrite total_cons.
      rewrite <- IH by (intros k Hk; apply Hks; right; assumption).
      rewrite <- (sum_over_single k0 (cell_value (num r c)) ks Hnd)
        by (apply Hks; left; reflexivity).
      rewrite <- sum_over_plus.
      apply sum_over_ext. intros k _.
      destruct (String.eqb k0 k).
      * apply total_cons.
      * ring.
    + apply IH. exact Hks.
Qed.

Lemma int_dtype_sum (cells : list (option Py.num)) :
  int_dtype cells = true -> inject_Z (sum_ints cells) == sum_values cells.
Proof.
  induction cells as [|[[z|q]|] l IH]; simpl; intros H; try discriminate.
  - reflexivity.
  - rewrite inject_Z_plus. rewrite IH by assumption. reflexivity.
Qed.

Lemma int_dtype_filter (p : Row -> bool) (c : string) (rs : list Row) :
  int_dtype (map (fun r => num r c) rs) = true ->
  int_dtype (map (fun r => num r c) (filter p rs)) = true.
Proof.
  induction rs as [|r rs IH]; simpl; intros H; [reflexivity|].
  apply andb_true_iff in H. destruct H as [H1 H2].
  destruct (p r); simpl; [rewrite H1|]; auto.
Qed.

(** The value of a group sum is the sum of the group, whatever the dtype. *)
Lemma sum_as_value (c : string) (p : Row -> bool) (rs : list Row) :
  value (sum_as (int_dtype (map (fun r => num r c) rs))
                (map (fun r => num r c) (filter p rs)))
  == total c (filter p rs).
Proof.
  unfold sum_as, total.
  destruct (int_dtype (map (fun r => num r c) rs)) eqn:E; simpl.
  - apply int_dtype_sum. apply int_dtype_filter. exact E.
  - reflexivity.
Qed.

(** *** groupby *)

Lemma groupby_agg_ok (key : string) (spec : list (string * aggfn)) (df out : DataFrame) :
  groupby_agg key spec df = Ok out ->
  out = mkDF (key :: map fst spec)
             (map (agg_row key spec (rows df)) (sorted_unique (keys_of key (rows df)))).
Proof.
  unfold groupby_agg. destruct (negb (has_column df key)); [discriminate|].
  destruct (find _ spec); [discriminate|]. intros H. inversion H. reflexivity.
Qed.

Lemma keys_of_filter (key : string) (rs : list Row) :
  keys_of key (filter (has_style key) rs) = keys_of key rs.
Proof.
  unfold has_style. induction rs as [|r rs IH]; simpl; [reflexivity|].
  destruct (text r key) eqn:E; simpl; rewrite ?E, IH; reflexivity.
Qed.

Lemma group_filter (key k : string) (rs : list Row) :
  group key k (filter (has_style key) rs) = group key k rs.
Proof.
  unfold group, in_group, has_style. induction rs as [|r rs IH]; simpl; [reflexivity|].
  destruct (text r key) eqn:E; simpl; rewrite ?E, IH; reflexivity.
Qed.

Lemma filter_idem {A : Type} (p : A -> bool) (l : list A) :
  filter p (filter p l) = filter p l.
Proof.
  induction l as [|a l IH]; simpl; [reflexivity|].
  destruct (p a) eqn:E; simpl; rewrite ?E, IH; reflexivity.
Qed.

Lemma group_has_style (key k : string) (rs : list Row) :
  group key k rs = filter (in_group key k) (filter (has_style key) rs).
Proof.
  rewrite <- (group_filter key k rs). reflexivity.
Qed.

(** The keys of the grouped frame: ascending, one row per key. *)
Lemma groupby_keys (key : string) (spec : list (string * aggfn)) (df out : DataFrame) :
  groupby_agg key spec df = Ok out ->
  map (fun g => text g key) (rows out)
  = map Some (sorted_unique (keys_of key (rows df))).
Proof.
  intros H. apply groupby_agg_ok in H. subst out. simpl.
  rewrite map_map. apply map_ext. intros k. simpl.
  rewrite String.eqb_refl. reflexivity.
Qed.

(** A summed column keeps its total over the rows that have a key. *)
Lemma groupby_sum_preserved (key c : string) (spec : list (string * aggfn))
                            (df out : DataFrame) :
  groupby_agg key spec df = Ok out ->
  lookup_agg c spec = Some sum -> c <> key ->
  total c (rows out) == total c (filter (has_style key) (rows df)).
Proof.
  intros H Hc Hne. apply groupby_agg_ok in H. subst out. simpl.
  unfold total at 1. rewrite sum_values_sum_over, map_map, sum_over_map.
  rewrite <- (sum_over_groups key c (sorted_unique (keys_of key (rows df)))).
  - apply sum_over_ext. intros k _. simpl.
    destruct (String.eqb_spec c key) as [->|_]; [contradiction|].
    rewrite Hc. simpl. apply sum_as_value.
  - apply sorted_nodup, sorted_unique_sorted.
  - intros k Hk. apply sorted_unique_in. exact Hk.
Qed.

(** A ['first'] column holds the first value of the group that is not
    missing. *)
Lemma groupby_first (key c k : string) (spec : list (string * aggfn))
                    (df out : DataFrame) (g : Row) :
  groupby_agg key spec df = Ok out ->
  lookup_agg c spec = Some first -> c <> key ->
  In g (rows out) -> text g key = Some k ->
  text g c = first_valid (map (fun r => text r c) (group key k (rows df)))
  /\ num g c = first_valid (map (fun r => num r c) (group key k (rows df)))
  /\ group key k (rows df) <> [].
Proof.
  intros H Hc Hne Hin Hk. apply groupby_agg_ok in H. subst out. simpl in Hin.
  apply in_map_iff in Hin. destruct Hin as [k' [<- Hk']].
  simpl in Hk. rewrite String.eqb_refl in Hk. inversion Hk. subst k'.
  simpl. destruct (String.eqb_spec c key) as [->|_]; [contradiction|].
  rewrite Hc. repeat split.
  apply sorted_unique_in, keys_of_in in Hk'. destruct Hk' as [r [Hr Hrk]].
  intros Hempty.
  assert (Hg : In r (group key k (rows df))).
  { unfold group. apply filter_In. split; [assumption|].
    unfold in_group. rewrite Hrk. apply String.eqb_refl. }
  rewrite Hempty in Hg. destruct Hg.
Qed.

End PandasFacts.

(* ===================================================================== *)
(** ** Facts about the aggregation step                                  *)
(* ===================================================================== *)

Module AggregationFacts.
Import Py Pandas Notions PandasFacts.

Lemma process7_ok (df out : DataFrame) :
  App7.process_excel_data df = Ok out ->
  groupby_agg "Style" App7.agg_spec (drop_missing "Style" df) = Ok out.
Proof.
  unfold App7.process_excel_data, dropna, drop_missing, has_style.
  destruct (has_column df "Style"); [|discriminate]. simpl. auto.
Qed.

(** The two PDF/HTML variants share the aggregation function. *)
Lemma process6_is_process7 (df : DataFrame) :
  App6.process_excel_data df = App7.process_excel_data df.
Proof. reflexivity. Qed.


(** Aggregation keeps the totals of the records that have a style. *)
Lemma process7_totals (df out : DataFrame) (c : string) :
  App7.process_excel_data df = Ok out ->
  c = "Total Qty" \/ c = "Total Value" ->
  total c (rows out) == total c (filter (has_style "Style") (rows df)).
Proof.
  intros H Hc. apply process7_ok in H.
  rewrite (groupby_sum_preserved "Style" c App7.agg_spec _ out H).
  - unfold drop_missing. simpl. rewrite filter_idem. reflexivity.
  - destruct Hc as [->| ->]; reflexivity.
  - destruct Hc as [->| ->]; discriminate.
Qed.

Lemma has_style_nonempty (key : string) (rs : list Row) :
  (forall r, In r rs -> text r key <> Some "") ->
  filter (has_nonempty_style key) rs = filter (has_style key) rs.
Proof.
  intros H. apply filter_ext_in. intros r Hr.
  unfold has_nonempty_style, has_style. specialize (H r Hr).
  destruct (text r key) as [s|]; simpl; [|reflexivity].
  destruct (String.eqb_spec s ""); [subst; contradiction|reflexivity].
Qed.

(** The sum invariant on inputs in which no style cell is an empty string. *)
Lemma process7_sum_invariant (df out : DataFrame) (c : string) :
  App7.process_excel_data df = Ok out ->
  (forall r, In r (rows df) -> text r "Style" <> Some "") ->
  c = "Total Qty" \/ c = "Total Value" ->
  total c (rows out) == total c (filter (has_nonempty_style "Style") (rows df)).
Proof.
  intros H Hne Hc. rewrite has_style_nonempty by assumption.
  apply process7_totals; assumption.
Qed.

(** *** The variant with column aliases *)



Lemma process3_ok (df out : DataFrame) (msgs : list string) :
  App3.process_excel_data df = Ok (out, msgs) ->
  has_column (App3.rename_columns df) "StyleID" = true ->
  msgs = [] /\
  exists g,
    groupby_agg "StyleID"
      (filter (fun kv => has_column (App3.rename_columns df) (fst kv)) App3.agg_functions)
      (App3.rename_columns df) = Ok g
    /\ out = App3.add_defaults g.
Proof.
  unfold App3.process_excel_data. intros H Hcol. rewrite Hcol in H.
  destruct (filter _ App3.agg_functions) as [|kv l]; [discriminate|].
  destruct (groupby_agg "StyleID" (kv :: l) (App3.rename_columns df)) as [g|e] eqn:E;
    simpl in H; [|discriminate].
  inversion H. split; [reflexivity|]. exists g. split; reflexivity.
Qed.


End AggregationFacts.

(* ===================================================================== *)
(** ** Facts about numbers and formatting                                *)
(* ===================================================================== *)

Module PyFacts.
Import Py Notions.

Lemma value_add (a b : Py.num) : value (add a b) == value a + value b.
Proof. destruct a, b; simpl; try reflexivity. rewrite inject_Z_plus. reflexivity. Qed.

Lemma value_mul (a b : Py.num) : value (mul a b) == value a * value b.
Proof. destruct a, b; simpl; reflexivity. Qed.

Lemma eq0_true (a : Py.num) : eq0 a = true <-> value a == 0.
Proof. unfold eq0. apply Qeq_bool_iff. Qed.

Lemma gt0_true (a : Py.num) : gt0 a = true <-> 0 < value a.
Proof.
  unfold gt0. rewrite negb_true_iff. split.
  - intros H. apply Qnot_le_lt. intros Hle. apply Qle_bool_iff in Hle. congruence.
  - intros H. destruct (Qle_bool (value a) 0) eqn:E; [|reflexivity].
    apply Qle_bool_iff in E. exfalso. exact (Qlt_not_le _ _ H E).
Qed.

Lemma gt0_false_zero (a : Py.num) : value a == 0 -> gt0 a = false.
Proof.
  intros H. destruct (gt0 a) eqn:E; [|reflexivity].
  apply gt0_true in E. rewrite H in E. discriminate.
Qed.

Lemma zero_num (q : Q) : q == 0 -> Qnum q = 0%Z.
Proof. unfold Qeq. simpl. lia. Qed.

Lemma int_zero (a : Py.num) : value a == 0 -> int a = 0%Z.
Proof.
  destruct a as [z|q]; simpl; intros H; apply zero_num in H; simpl in H.
  - exact H.
  - rewrite H. reflexivity.
Qed.

Lemma format_2f_zero (q : Q) : q == 0 -> format_2f q = "0.00".
Proof.
  intros H. apply zero_num in H. destruct q as [n d]. simpl in H. subst n.
  reflexivity.
Qed.

(** *** Digits *)

Lemma all_digits_uint (d : Decimal.uint) : all_digits (NilEmpty.string_of_uint d) = true.
Proof. induction d; simpl; auto. Qed.

Lemma digits_all (n : Z) : all_digits (digits n) = true.
Proof.
  unfold digits, NilZero.string_of_uint.
  destruct (N.to_uint (Z.to_N n)) eqn:E; try reflexivity;
    rewrite <- E; try apply all_digits_uint;
    rewrite E; simpl; apply all_digits_uint.
Qed.








(** *** Substrings *)


End PyFacts.

(* ===================================================================== *)
(** ** Facts about the composers                                         *)
(* ===================================================================== *)

Module ComposerFacts.
Import Py Pandas Notions PyFacts.

(** The row loop of [3app.py] adds up the rows and appends one table row
    for each of them. *)
Lemma loop3_spec (df : DataFrame) (rs : list Row) (acc : App3.Acc) :
  let acc' := fold_left (App3.step df) rs acc in
  value (App3.total_qty acc')
  == value (App3.total_qty acc) + sum_over (fun r => value (App3.row_qty df r)) rs
  /\ value (App3.total_amount acc')
     == value (App3.total_amount acc)
        + sum_over (fun r => value (App3.row_amount df r)) rs
  /\ App3.table_data acc' = (App3.table_data acc ++ map (App3.table_row df) rs)%list.
Proof.
  revert acc. induction rs as [|r rs IH]; intros acc; simpl.
  - repeat split; try ring. rewrite app_nil_r. reflexivity.
  - destruct (IH (App3.step df acc r)) as [Hq [Ha Ht]].
    split; [|split].
    + rewrite Hq. simpl. rewrite value_add. ring.
    + rewrite Ha. simpl. rewrite value_add. ring.
    + rewrite Ht. simpl. rewrite <- app_assoc. reflexivity.
Qed.

(** The words step returns a string whatever the engine does. *)
Lemma amount_in_words_ok (engine : Z -> result string) (total : Py.num) :
  exists s, App3.amount_in_words engine total = Ok s.
Proof.
  unfold App3.amount_in_words, App3.words_body, App3.words_fallback, try_except, bind.
  destruct (engine (int total)); eexists; reflexivity.
Qed.

Lemma generate3_ok (engine : Z -> result string) (now : App3.datetime) (df : DataFrame)
    (pi po sd : option string) (doc : App3.Invoice) (tq ta : Py.num) :
  App3.generate_proforma_invoice engine now df pi po sd = Ok (doc, tq, ta) ->
  let acc := fold_left (App3.step df) (rows df)
                       (App3.mkAcc (Int 0) (Int 0) [App3.table_header]) in
  tq = App3.total_qty acc /\ ta = App3.total_amount acc
  /\ App3.table doc = (App3.table_data acc ++ [App3.total_row ta])%list
  /\ App3.footer_total doc = "Total" ++ nl ++ format_int_comma (int tq)
  /\ exists s, App3.amount_in_words engine ta = Ok s
               /\ App3.words_paragraph doc = "TOTAL US DOLLAR " ++ s.
Proof.
  intros H. cbv zeta. unfold App3.generate_proforma_invoice in H.
  set (acc := fold_left (App3.step df) (rows df)
                        (App3.mkAcc (Int 0) (Int 0) [App3.table_header])) in *.
  destruct (amount_in_words_ok engine (App3.total_amount acc)) as [s Hs].
  rewrite Hs in H. simpl in H. inversion H. subst. simpl.
  repeat split. exists s. split; [exact Hs|reflexivity].
Qed.

(** After aggregation every summed cell holds a number. *)
Lemma summed_cells_present (key c : string) (spec : list (string * aggfn))
                           (df out : DataFrame) (g : Row) :
  groupby_agg key spec df = Ok out ->
  lookup_agg c spec = Some sum -> c <> key ->
  In g (rows out) -> exists n, num g c = Some n.
Proof.
  intros H Hc Hne Hin. apply PandasFacts.groupby_agg_ok in H. subst out. simpl in Hin.
  apply in_map_iff in Hin. destruct Hin as [k [<- _]]. simpl.
  destruct (String.eqb_spec c key) as [->|_]; [contradiction|].
  rewrite Hc. eexists. reflexivity.
Qed.

Lemma processed7_cells (df out : DataFrame) (g : Row) :
  App7.process_excel_data df = Ok out -> In g (rows out) ->
  exists q a, num g "Total Qty" = Some q /\ num g "Total Value" = Some a.
Proof.
  intros H Hin. apply AggregationFacts.process7_ok in H.
  destruct (summed_cells_present "Style" "Total Qty" _ _ _ g H eq_refl
              ltac:(discriminate) Hin) as [q Hq].
  destruct (summed_cells_present "Style" "Total Value" _ _ _ g H eq_refl
              ltac:(discriminate) Hin) as [a Ha].
  exists q, a. split; assumption.
Qed.


(** The row loop of [7app.py] on the same rows. *)
Lemma for_rows7_ok (rs : list Row) :
  (forall r, In r rs ->
     exists q a, num r "Total Qty" = Some q /\ num r "Total Value" = Some a) ->
  exists trs, App7.for_rows rs = Ok trs /\ length trs = length rs.
Proof.
  induction rs as [|r rs IH]; intros Hcells.
  - exists []. split; reflexivity.
  - destruct (Hcells r (or_introl eq_refl)) as [q [a [Hq _]]].
    destruct (IH (fun r' Hr' => Hcells r' (or_intror Hr'))) as [trs [Htrs Hlen]].
    simpl. unfold App7.table_row. rewrite Hq. simpl. rewrite Htrs. simpl.
    eexists. split; [reflexivity|]. simpl. rewrite Hlen. reflexivity.
Qed.

Lemma gt0_nonneg (a : Py.num) : 0 <= value a -> gt0 a = negb (eq0 a).
Proof.
  intros H. destruct (eq0 a) eqn:E; simpl.
  - apply gt0_false_zero. apply eq0_true. exact E.
  - apply gt0_true. apply Qle_lteq in H. destruct H as [H|H]; [exact H|].
    assert (E' : eq0 a = true) by (apply eq0_true; symmetry; exact H).
    congruence.
Qed.

End ComposerFacts.

(* ===================================================================== *)
(** ** Properties of the specification: aggregation                      *)
(* ===================================================================== *)

Import Py Pandas Notions PandasFacts AggregationFacts.

(** C1, at the input [Samples.empty_style].  A record whose style cell is
    the empty string is kept by [dropna] and forms a group of its own: the
    aggregated quantity and amount are 5 and 10, whereas the records with a
    non-empty style sum to 0. *)
Theorem C1_empty_style_record_is_aggregated :
  map (fun g => text g "Style") (frame_rows (App7.process_excel_data Samples.empty_style))
  = [Some ""]
  /\ total "Total Qty" (frame_rows (App7.process_excel_data Samples.empty_style)) == 5
  /\ total "Total Value" (frame_rows (App7.process_excel_data Samples.empty_style)) == 10
  /\ total "Total Qty"
       (filter (has_nonempty_style "Style") (rows Samples.empty_style)) == 0
  /\ total "Total Value"
       (filter (has_nonempty_style "Style") (rows Samples.empty_style)) == 0.
Proof. repeat split; vm_compute; reflexivity. Qed.

(** C2, refuted: style B is seen first in the input, yet its aggregated row
    comes after the row of style A. *)
Lemma C2_first_seen_order_not_kept :
  first_seen "Style" "B" (rows Samples.b_then_a) = Some 0%nat
  /\ first_seen "Style" "A" (rows Samples.b_then_a) = Some 1%nat
  /\ first_seen "Style" "B" (frame_rows (App7.process_excel_data Samples.b_then_a))
     = Some 1%nat
  /\ first_seen "Style" "A" (frame_rows (App7.process_excel_data Samples.b_then_a))
     = Some 0%nat.
Proof. repeat split. Qed.

(** C2, as the code has it: the aggregated rows come in ascending order of
    style (Python's string order), one row for each style that occurs in the
    input, whatever the order of the input. *)
Theorem C2_rows_ascending_by_style (df out : DataFrame) :
  App7.process_excel_data df = Ok out ->
  exists ks,
    map (fun g => text g "Style") (rows out) = map Some ks
    /\ StronglySorted str_lt ks
    /\ forall k, In k ks <-> exists r, In r (rows df) /\ text r "Style" = Some k.
Proof.
  intros H. apply process7_ok in H.
  exists (sorted_unique (keys_of "Style" (rows (drop_missing "Style" df)))).
  split; [|split].
  - apply (groupby_keys _ _ _ _ H).
  - apply sorted_unique_sorted.
  - intros k. rewrite sorted_unique_in. unfold drop_missing. simpl.
    rewrite keys_of_filter. apply keys_of_in.
Qed.

Lemma C2_rows_ascending_by_style_witness :
  exists out,
    App7.process_excel_data Samples.b_then_a = Ok out
    /\ exists ks,
         map (fun g => text g "Style") (rows out) = map Some ks
         /\ StronglySorted str_lt ks
         /\ forall k, In k ks <->
                      exists r, In r (rows Samples.b_then_a) /\ text r "Style" = Some k.
Proof.
  eexists. split.
  - reflexivity.
  - apply (C2_rows_ascending_by_style Samples.b_then_a). reflexivity.
Defined.




(** C5, refuted: the first record of style A has no description, and the
    aggregated row takes the description of the second record. *)
Lemma C5_first_record_not_representative :
  map (fun r => text r "Description") (group "Style" "A" (rows Samples.late_description))
  = [None; Some "desc2"]
  /\ map (fun g => text g "Description")
         (frame_rows (App7.process_excel_data Samples.late_description))
     = [Some "desc2"].
Proof. split; reflexivity. Qed.

(** C5, as the code has it: for the records of one style, description,
    composition and unit price of the aggregated row are each the first
    value, in input order, that is not missing; when the first record of the
    style carries the value, it is that record's value. *)
Theorem C5_first_present_value_represents (df out : DataFrame) (g : Row) (k : string) :
  App7.process_excel_data df = Ok out ->
  In g (rows out) ->
  text g "Style" = Some k ->
  let members := group "Style" k (rows df) in
  text g "Description" = first_valid (map (fun r => text r "Description") members)
  /\ text g "Composition" = first_valid (map (fun r => text r "Composition") members)
  /\ num g "USD Fob$" = first_valid (map (fun r => num r "USD Fob$") members)
  /\ exists r0 rest,
       members = r0 :: rest
       /\ (text r0 "Description" <> None -> text g "Description" = text r0 "Description")
       /\ (text r0 "Composition" <> None -> text g "Composition" = text r0 "Composition")
       /\ (num r0 "USD Fob$" <> None -> num g "USD Fob$" = num r0 "USD Fob$").
Proof.
  intros H Hin Hk members. apply process7_ok in H.
  assert (Hm : group "Style" k (rows (drop_missing "Style" df)) = members)
    by apply group_filter.
  pose proof (groupby_first "Style" "Description" k _ _ _ g H eq_refl
                ltac:(discriminate) Hin Hk) as [Hd [_ Hne]].
  pose proof (groupby_first "Style" "Composition" k _ _ _ g H eq_refl
                ltac:(discriminate) Hin Hk) as [Hc _].
  pose proof (groupby_first "Style" "USD Fob$" k _ _ _ g H eq_refl
                ltac:(discriminate) Hin Hk) as [_ [Hp _]].
  rewrite Hm in Hd, Hc, Hp, Hne.
  repeat split; try assumption.
  destruct members as [|r0 rest]; [contradiction|].
  exists r0, rest. split; [reflexivity|].
  simpl in Hd, Hc, Hp.
  repeat split; intros Hv.
  - destruct (text r0 "Description"); [exact Hd|contradiction].
  - destruct (text r0 "Composition"); [exact Hc|contradiction].
  - destruct (num r0 "USD Fob$"); [exact Hp|contradiction].
Qed.

Lemma C5_first_present_value_represents_witness :
  exists out g,
    App7.process_excel_data Samples.two_descriptions = Ok out
    /\ In g (rows out)
    /\ text g "Style" = Some "A"
    /\ text g "Description" = Some "desc1".
Proof.
  eexists. eexists. split; [reflexivity|]. split; [left; reflexivity|].
  split; [reflexivity|].
  exact (proj1 (C5_first_present_value_represents Samples.two_descriptions _ _ "A"
                  eq_refl (or_introl eq_refl) eq_refl)).
Defined.

(* ===================================================================== *)
(** ** Properties of the specification: composition                      *)
(* ===================================================================== *)

Import PyFacts ComposerFacts.

(** C4, refuted: the first record of style A has amount 0, quantity 10 and
    price 2.5.  Deriving its amount before aggregation would give the style
    25 + 100 = 125; the pipeline of [3app.py] sums the amounts as they are
    and prints 100.00, because the sum is not 0 when the composer looks at
    it.  [7app.py] derives nothing: such a record alone prints 0.00. *)
Lemma C4_amount_not_derived_before_aggregation :
  sum_over (fun r => value (App3.row_amount (App3.rename_columns Samples.split_amount) r))
           (rows (App3.rename_columns Samples.split_amount)) == 125
  /\ nth 1 (table_of (App3.pipeline Samples.engine_fault Samples.morning
                                     Samples.split_amount None None None)) []
     = ["A"; "Bodysuit"; "KNITTED"; "61112000"; "100% Cotton"; "India";
        "11"; "2.50"; "100.00"]
  /\ rows_of7 (App7.generate_html_invoice Samples.float_format_unused
                 Samples.zero_amount7 "SAR/LG/0148" "14-10-2024" "CPO/47062/25")
     = [["A"; "Bodysuit"; "KNITTED"; "61112000"; "100% Cotton"; "India";
         "10"; "2.50"; "0.00"]].
Proof. repeat split; vm_compute; reflexivity. Qed.

(** C4, as the code has it: in [3app.py] the rule is applied by the composer
    to each row of the frame it is given, that is after aggregation: a row
    whose amount is 0 while quantity and unit price are positive is printed
    and totalled with quantity times unit price.  (A single record with
    quantity 10, unit price 2.5 and no amount field therefore yields 25.00.)
    [7app.py] prints the summed value as it is. *)
Theorem C4_amount_derived_on_composed_rows :
  (forall (engine : Z -> result string) (now : App3.datetime) (df : DataFrame)
          (pi po sd : option string) (doc : App3.Invoice) (tq ta : Py.num),
     App3.generate_proforma_invoice engine now df pi po sd = Ok (doc, tq, ta) ->
     App3.table doc
     = (App3.table_header :: map (App3.table_row df) (rows df)
          ++ [App3.total_row ta])%list
     /\ value ta == sum_over (fun r => value (App3.row_amount df r)) (rows df)
     /\ forall r,
          value (App3.num_field df r "Amount" "Total Value") == 0 ->
          0 < value (App3.row_qty df r) ->
          0 < value (App3.row_price df r) ->
          value (App3.row_amount df r)
          == value (App3.row_qty df r) * value (App3.row_price df r)
          /\ nth 8 (App3.table_row df r) "" = format_2f (value (App3.row_amount df r)))
  /\ (forall (r : Row) (cells : list string),
        App7.table_row r = Ok cells ->
        nth 8 cells "" = App7.float_2f (num r "Total Value")).
Proof.
  split.
  - intros engine now df pi po sd doc tq ta H.
    destruct (generate3_ok _ _ _ _ _ _ _ _ _ H) as [_ [Hta [Htab _]]].
    destruct (loop3_spec df (rows df) (App3.mkAcc (Int 0) (Int 0) [App3.table_header]))
      as [_ [Ha Ht]].
    split; [|split].
    + rewrite Htab, Ht. reflexivity.
    + rewrite Hta, Ha. simpl. ring.
    + intros r H0 Hq Hp.
      assert (Hd : value (App3.row_amount df r)
                   == value (App3.row_qty df r) * value (App3.row_price df r)).
      { unfold App3.row_amount, App3.derive_amount.
        rewrite (proj2 (eq0_true _) H0), (proj2 (gt0_true _) Hq), (proj2 (gt0_true _) Hp).
        simpl. apply value_mul. }
      split; [exact Hd|].
      unfold App3.table_row. simpl.
      assert (Hg : gt0 (App3.row_amount df r) = true).
      { apply gt0_true. rewrite Hd. apply Qmult_lt_0_compat; assumption. }
      rewrite Hg. reflexivity.
  - intros r cells H. unfold App7.table_row, App7.int_cell in H.
    destruct (num r "Total Qty"); simpl in H; [|discriminate].
    inversion H. reflexivity.
Qed.

Lemma C4_amount_derived_on_composed_rows_witness :
  exists doc tq ta,
    App3.generate_proforma_invoice Samples.engine_fault Samples.morning
      Samples.derived_amount None None None = Ok (doc, tq, ta)
    /\ value ta == 25
    /\ nth 8 (nth 1 (App3.table doc) []) "" = "25.00".
Proof.
  eexists. eexists. eexists. split; [reflexivity|].
  pose proof (proj1 C4_amount_derived_on_composed_rows
                Samples.engine_fault Samples.morning Samples.derived_amount
                None None None _ _ _ eq_refl) as [Ht [Hs Hr]].
  split.
  - rewrite Hs. vm_compute. reflexivity.
  - rewrite Ht.
    set (r0 := Samples.record3 (Some "B") (Some "Bodysuit") (5 # 2) 10 None).
    assert (H0 : value (App3.num_field Samples.derived_amount r0 "Amount" "Total Value") == 0)
      by (vm_compute; reflexivity).
    assert (Hq : 0 < value (App3.row_qty Samples.derived_amount r0))
      by (vm_compute; reflexivity).
    assert (Hp : 0 < value (App3.row_price Samples.derived_amount r0))
      by (vm_compute; reflexivity).
    destruct (Hr r0 H0 Hq Hp) as [_ Hcell].
    change (nth 8 (App3.table_row Samples.derived_amount r0) "" = "25.00").
    rewrite Hcell. vm_compute. reflexivity.
Defined.

(** The instance of the specification, through both steps of [3app.py]. *)
Example derived_amount_through_pipeline (engine : Z -> result string) :
  nth 1 (table_of (App3.pipeline engine Samples.morning
                                 Samples.derived_amount None None None)) []
  = ["B"; "Bodysuit"; "KNITTED"; "61112000"; "100% Cotton"; "India";
     "10"; "2.50"; "25.00"].
Proof.
  unfold App3.pipeline, App3.generate_proforma_invoice, App3.amount_in_words,
    App3.words_body, App3.words_fallback, try_except. simpl.
  destruct (engine _); reflexivity.
Qed.










(** C7, refuted: [7app.py] prints a zero quantity as "0" and zero price and
    amount as "0.00". *)
Lemma C7_html_row_prints_zero :
  rows_of7 (App7.generate_html_invoice Samples.float_format_unused
              Samples.zero_quantity "SAR/LG/0148" "14-10-2024" "CPO/47062/25")
  = [["A"; "Bodysuit"; "KNITTED"; "61112000"; "100% Cotton"; "India";
      "0"; "0.00"; "0.00"]].
Proof. vm_compute. reflexivity. Qed.

(** C7, as the code has it.  In [3app.py], for quantities, prices and
    amounts that are not negative, the quantity cell is the integer part with
    thousands separators, the price and amount cells have two decimals, and
    each is the empty string when its value is exactly 0.  In [7app.py]
    (like [6app.py]) the cells are never blanked: 0 prints as "0" and as
    "0.00". *)
Theorem C7_zero_cells :
  (forall (df : DataFrame) (r : Row),
     0 <= value (App3.row_qty df r) ->
     0 <= value (App3.row_price df r) ->
     0 <= value (App3.row_amount df r) ->
     nth 6 (App3.table_row df r) ""
     = (if eq0 (App3.row_qty df r) then ""
        else format_int_comma (int (App3.row_qty df r)))
     /\ nth 7 (App3.table_row df r) ""
        = (if eq0 (App3.row_price df r) then ""
           else format_2f (value (App3.row_price df r)))
     /\ nth 8 (App3.table_row df r) ""
        = (if eq0 (App3.row_amount df r) then ""
           else format_2f (value (App3.row_amount df r))))
  /\ (forall (r : Row) (cells : list string),
        App7.table_row r = Ok cells ->
        exists q,
          num r "Total Qty" = Some q
          /\ nth 6 cells "" = format_int_comma (int q)
          /\ nth 7 cells "" = App7.float_2f (num r "USD Fob$")
          /\ nth 8 cells "" = App7.float_2f (num r "Total Value")
          /\ (value q == 0 -> nth 6 cells "" = "0")
          /\ (forall p, num r "USD Fob$" = Some p -> value p == 0 ->
                nth 7 cells "" = "0.00")
          /\ (forall a, num r "Total Value" = Some a -> value a == 0 ->
                nth 8 cells "" = "0.00")).
Proof.
  split.
  - intros df r Hq Hp Ha. unfold App3.table_row. simpl.
    rewrite (gt0_nonneg _ Hq), (gt0_nonneg _ Hp), (gt0_nonneg _ Ha).
    repeat split;
      match goal with |- context [eq0 ?x] => destruct (eq0 x); reflexivity end.
  - intros r cells H. unfold App7.table_row, App7.int_cell in H.
    destruct (num r "Total Qty") as [q|] eqn:Eq; simpl in H; [|discriminate].
    inversion H. subst cells. exists q. simpl.
    repeat split.
    + intros H0. rewrite (int_zero q H0). reflexivity.
    + intros p Hp H0. rewrite Hp. simpl. apply format_2f_zero. exact H0.
    + intros a Ha H0. rewrite Ha. simpl. apply format_2f_zero. exact H0.
Qed.

Lemma C7_zero_cells_witness :
  0 <= value (App3.row_qty Samples.split_amount Samples.zero_record3)
  /\ nth 6 (App3.table_row Samples.split_amount Samples.zero_record3) "" = ""
  /\ nth 7 (App3.table_row Samples.split_amount Samples.zero_record3) "" = ""
  /\ nth 8 (App3.table_row Samples.split_amount Samples.zero_record3) "" = "".
Proof.
  assert (Hq : 0 <= value (App3.row_qty Samples.split_amount Samples.zero_record3))
    by (vm_compute; discriminate).
  assert (Hp : 0 <= value (App3.row_price Samples.split_amount Samples.zero_record3))
    by (vm_compute; discriminate).
  assert (Ha : 0 <= value (App3.row_amount Samples.split_amount Samples.zero_record3))
    by (vm_compute; discriminate).
  split; [exact Hq|].
  exact (proj1 C7_zero_cells Samples.split_amount Samples.zero_record3 Hq Hp Ha).
Defined.



(* ===================================================================== *)
(** ** Worked instances                                                  *)
(* ===================================================================== *)

Example format_int_comma_4107 : format_int_comma 4107 = "4,107".
Proof. reflexivity. Qed.

Example format_int_comma_millions : format_int_comma (-1234567) = "-1,234,567".
Proof. reflexivity. Qed.

Example format_2f_whole : format_2f (24642 # 1) = "24642.00".
Proof. reflexivity. Qed.

Example format_2f_ties_to_even : format_2f (1 # 8) = "0.12".
Proof. reflexivity. Qed.

Example format_2f_negative : format_2f (- (1 # 1000)) = "-0.00".
Proof. reflexivity. Qed.

Example format_comma_2f_grouped : format_comma_2f (2764205 # 100) = "27,642.05".
Proof. reflexivity. Qed.

Example replace_zero_cents :
  replace " AND ZERO CENTS" " DOLLARS" "TWO DOLLARS AND ZERO CENTS" = "TWO DOLLARS DOLLARS".
Proof. reflexivity. Qed.

Example hs_code_cleanup : replace "." "" "6111.20" = "611120".
Proof. reflexivity. Qed.

Example upper_words : upper "twenty-five dollars, zero cents" = "TWENTY-FIVE DOLLARS, ZERO CENTS".
Proof. reflexivity. Qed.

(** The end-to-end scenario of the specification on [7app.py]: two records
    of one style and one record without a style. *)
Example scenario_html :
  rows_of7 (App7.generate_html_invoice Samples.float_format_unused
              (mkDF Samples.columns7
                 [Samples.record7 (Some "SAV001S25") (Some "Bodysuit") 6 4107 24642;
                  Samples.record7 (Some "SAV001S25") (Some "Bodysuit") 6 500 3000;
                  Samples.record7 None (Some "Bodysuit") 6 7 42])
              "SAR/LG/0148" "14-10-2024" "CPO/47062/25")
  = [["SAV001S25"; "Bodysuit"; "KNITTED"; "61112000"; "100% Cotton"; "India";
      "4,607"; "6.00"; "27642.00"]].
Proof. vm_compute. reflexivity. Qed.



(* ===================================================================== *)
(** ** Further facts: formatting does not depend on the representation   *)
(* ===================================================================== *)

Module FormatFacts.
Import Py Pandas Notions.










End FormatFacts.

(* ===================================================================== *)
(** ** Further properties: aggregation                                   *)
(* ===================================================================== *)

Module GroupingFacts.
Import Py Pandas Notions Reading PandasFacts AggregationFacts.








Lemma int_dtype_perm (c : string) (rs rs' : list Row) :
  Permutation rs rs' ->
  int_dtype (map (fun r => num r c) rs) = int_dtype (map (fun r => num r c) rs').
Proof.
  unfold int_dtype.
  induction 1 as [|r rs rs' Hp IH|r1 r2 rs|rs1 rs2 rs3 H1 IH1 H2 IH2]; simpl.
  - reflexivity.
  - rewrite IH. reflexivity.
  - rewrite !andb_assoc, (andb_comm (is_int_cell (num r2 c))). reflexivity.
  - rewrite IH1. exact IH2.
Qed.


End GroupingFacts.

Import Reading FormatFacts GroupingFacts.







(* ===================================================================== *)
(** ** Further properties: validation and the composed page              *)
(* ===================================================================== *)

Module ValidationFacts.
Import Py Pandas Notions Reading PandasFacts AggregationFacts ComposerFacts.





End ValidationFacts.

Import ValidationFacts.





(** X6.  In [7app.py] the three metrics shown before generation agree with
    the page generated afterwards: the number of unique styles is the number
    of data rows, the total quantity is the quantity cell of the totals row,
    and the total value is the number of the total line. *)
Theorem X6_summary_agrees_with_page
    (fmt : Q -> string) (df : DataFrame) (pi cpo : string) (day : App3.datetime)
    (n : nat) (q v : string) :
  Main7.preview fmt df = Main7.Summary n q v ->
  exists name html x,
    Main7.generate_button fmt df pi day cpo = Main7.Offered name html
    /\ length (App7.table_rows html) = n
    /\ nth 1 (App7.total_row html) "" = q
    /\ v = "$" ++ x
    /\ App7.total_words html = "TOTAL US DOLLAR " ++ x ++ " DOLLARS".
Proof.
  unfold Main7.preview, Main7.generate_button. intros H.
  destruct (Main7.missing_columns df); [|discriminate].
  destruct (App7.process_excel_data df) as [out|e] eqn:E; [|discriminate].
  inversion H. subst n q v. clear H.
  destruct (for_rows7_ok (rows out) (fun g Hg => processed7_cells df out g E Hg))
    as [trs [Htrs Hlen]].
  cbv zeta. unfold App7.generate_html_invoice. rewrite E. cbn [bind].
  rewrite Htrs. cbn [bind].
  eexists. eexists. eexists. split; [reflexivity|].
  cbn [App7.table_rows App7.total_row App7.total_words nth].
  repeat split. exact Hlen.
Qed.

Lemma X6_summary_agrees_with_page_witness :
  Main7.preview Samples.float_format_unused Samples.one_style7
  = Main7.Summary 1 "10" "$25.00"
  /\ exists name html,
       Main7.generate_button Samples.float_format_unused Samples.one_style7
         "SAR/LG/0148" Samples.morning "CPO/47062/25" = Main7.Offered name html
       /\ nth 1 (App7.total_row html) "" = "10".
Proof.
  split; [reflexivity|].
  destruct (X6_summary_agrees_with_page Samples.float_format_unused Samples.one_style7
              "SAR/LG/0148" "CPO/47062/25" Samples.morning 1 "10" "$25.00" eq_refl)
    as [name [html [x [Hb [_ [Hq _]]]]]].
  exists name, html. split; assumption.
Defined.

(* ===================================================================== *)
(** ** Further properties: the variant with column aliases               *)
(* ===================================================================== *)

Module AliasFacts.
Import Py Pandas Notions Reading PandasFacts AggregationFacts ComposerFacts.

Lemma existsb_map {A B : Type} (f : B -> bool) (g : A -> B) (l : list A) :
  existsb f (map g l) = existsb (fun a => f (g a)) l.
Proof. induction l as [|a l IH]; simpl; [reflexivity|]. rewrite IH. reflexivity. Qed.

Lemma has_rename_new (old new : string) (acc : DataFrame) :
  has_column acc old = true -> has_column (rename old new acc) new = true.
Proof.
  unfold has_column, rename. cbn [columns]. rewrite existsb_map.
  intros H. apply existsb_exists in H. destruct H as [x [Hx Hox]].
  apply existsb_exists. exists x. split; [exact Hx|].
  unfold rename_label. apply String.eqb_eq in Hox. subst x.
  rewrite String.eqb_refl. apply String.eqb_refl.
Qed.

Lemma has_rename_keep (old new c : string) (acc : DataFrame) :
  has_column acc c = true -> c <> old -> has_column (rename old new acc) c = true.
Proof.
  unfold has_column, rename. cbn [columns]. rewrite existsb_map.
  intros H Hne. apply existsb_exists in H. destruct H as [x [Hx Hcx]].
  apply existsb_exists. exists x. split; [exact Hx|].
  unfold rename_label. apply String.eqb_eq in Hcx. subst x.
  destruct (String.eqb_spec c old); [contradiction|]. apply String.eqb_refl.
Qed.


(** A column that the later renamings leave alone, and one that a later
    renaming creates. *)
Ltac kept H :=
  first [exact H | apply has_rename_keep; [kept H | discriminate]].








(** The frame returned on the aggregating branch. *)
Lemma process3_shape (df out : DataFrame) (msgs : list string) :
  App3.process_excel_data df = Ok (out, msgs) ->
  has_column (App3.rename_columns df) "StyleID" = true ->
  exists (existing : list (string * aggfn)) (grouped : list Row),
    existing = filter (fun kv => has_column (App3.rename_columns df) (fst kv))
                      App3.agg_functions
    /\ out = App3.add_defaults (mkDF ("StyleID" :: map fst existing) grouped).
Proof.
  intros H Hcol. destruct (process3_ok df out msgs H Hcol) as [_ [g [Hg ->]]].
  apply groupby_agg_ok in Hg. subst g. eexists. eexists. split; reflexivity.
Qed.

Ltac split_existing df :=
  unfold App3.agg_functions; cbn [filter fst];
  destruct (has_column (App3.rename_columns df) "Item Description");
  destruct (has_column (App3.rename_columns df) "Composition");
  destruct (has_column (App3.rename_columns df) "Unit Price");
  destruct (has_column (App3.rename_columns df) "Qty");
  destruct (has_column (App3.rename_columns df) "Amount").

End AliasFacts.

Import AliasFacts.

(** X7.  On its aggregating branch [3app.py] always sets the three default
    columns: every aggregated row has fabric type KNITTED, HS code 61112000
    and country of origin India, whatever such columns the sheet holds, and
    the composer prints these values. *)
Theorem X7_defaults_replace_sheet_columns
    (df out : DataFrame) (msgs : list string) (g : Row) :
  App3.process_excel_data df = Ok (out, msgs) ->
  has_column (App3.rename_columns df) "StyleID" = true ->
  In g (rows out) ->
  text g "Fabric Type" = Some "KNITTED"
  /\ text g "HS Code" = Some "61112000"
  /\ text g "Country of Origin" = Some "India"
  /\ nth 2 (App3.table_row out g) "" = "KNITTED"
  /\ nth 3 (App3.table_row out g) "" = "61112000"
  /\ nth 5 (App3.table_row out g) "" = "India".
Proof.
  intros H Hcol Hin.
  destruct (process3_shape df out msgs H Hcol) as [existing [grouped [He ->]]].
  subst existing. revert Hin.
  AliasFacts.split_existing df;
    unfold App3.add_defaults, App3.required_columns, assign_text, has_column;
    cbn [fold_left fst snd columns rows map existsb String.eqb Ascii.eqb Bool.eqb
         orb app];
    rewrite ?map_map; intros Hin; apply in_map_iff in Hin;
    destruct Hin as [r [<- _]];
    repeat split.
Qed.

Lemma X7_defaults_replace_sheet_columns_witness :
  exists out g,
    App3.process_excel_data Samples.one_style3 = Ok (out, [])
    /\ In g (rows out)
    /\ nth 2 (App3.table_row out g) "" = "KNITTED"
    /\ nth 3 (App3.table_row out g) "" = "61112000"
    /\ nth 5 (App3.table_row out g) "" = "India".
Proof.
  eexists. eexists. split; [reflexivity|]. split; [left; reflexivity|].
  destruct (X7_defaults_replace_sheet_columns Samples.one_style3 _ [] _
              eq_refl eq_refl (or_introl eq_refl)) as [_ [_ [_ H]]].
  exact H.
Defined.

Module Composer3Facts.
Import Py Pandas Notions Reading ComposerFacts.


(** Its table and its totals. *)
Lemma generate3_table (engine : Z -> result string) (now : App3.datetime)
    (df : DataFrame) (pi po sd : option string) (doc : App3.Invoice) (tq ta : Py.num) :
  App3.generate_proforma_invoice engine now df pi po sd = Ok (doc, tq, ta) ->
  App3.table doc
  = (App3.table_header :: map (App3.table_row df) (rows df) ++ [App3.total_row ta])%list
  /\ value tq == sum_over (fun r => value (App3.row_qty df r)) (rows df)
  /\ value ta == sum_over (fun r => value (App3.row_amount df r)) (rows df)
  /\ App3.footer_total doc = "Total" ++ nl ++ format_int_comma (int tq).
Proof.
  intros H. destruct (generate3_ok _ _ _ _ _ _ _ _ _ H) as [Htq [Hta [Htab [Hf _]]]].
  destruct (loop3_spec df (rows df) (App3.mkAcc (Int 0) (Int 0) [App3.table_header]))
    as [Hq [Ha Ht]].
  split; [|split; [|split]].
  - rewrite Htab, Ht. reflexivity.
  - rewrite Htq, Hq. simpl. ring.
  - rewrite Hta, Ha. simpl. ring.
  - exact Hf.
Qed.

Lemma table_row_length (df : DataFrame) (r : Row) :
  length (App3.table_row df r) = 9%nat.
Proof. reflexivity. Qed.

End Composer3Facts.

Import Composer3Facts.



Module PipelineFacts.
Import Py Pandas Notions Reading PandasFacts AggregationFacts ComposerFacts AliasFacts.




Lemma loop6_cells (rs : list Row) (acc acc' : App6.Acc) :
  App6.loop acc rs = Ok acc' ->
  Forall (fun row => length row = 9%nat) (App6.body acc) ->
  Forall (fun row => length row = 9%nat) (App6.body acc').
Proof.
  revert acc. induction rs as [|r rs IH]; intros acc H Hall; simpl in H.
  - inversion H. subst. exact Hall.
  - unfold App6.step in H.
    destruct (App7.int_cell (num r "Total Qty")) as [q|e]; cbn [bind] in H; [|discriminate].
    apply IH in H; [exact H|]. cbn [App6.body].
    apply Forall_app. split; [exact Hall|]. constructor; [reflexivity|constructor].
Qed.

Lemma for_rows7_cells (rs : list Row) (trs : list (list string)) :
  App7.for_rows rs = Ok trs -> Forall (fun row => length row = 9%nat) trs.
Proof.
  revert trs. induction rs as [|r rs IH]; intros trs H; simpl in H.
  - inversion H. constructor.
  - unfold App7.table_row in H.
    destruct (App7.int_cell (num r "Total Qty")) as [q|e]; cbn [bind] in H; [|discriminate].
    destruct (App7.for_rows rs) as [trs'|e]; cbn [bind] in H; [|discriminate].
    inversion H. constructor; [reflexivity|]. apply IH. reflexivity.
Qed.

End PipelineFacts.

Import PipelineFacts.





(** X11.  Every composed table is rectangular: in [3app.py] the table has
    the header, one row for each row of the frame and the totals row, each
    with nine cells; in [6app.py] every row of the table has nine cells; in
    [7app.py] every data row has nine cells and the totals row has four (its
    first cell spans six columns). *)
Theorem X11_tables_are_rectangular :
  (forall (engine : Z -> result string) (now : App3.datetime) (df : DataFrame)
          (pi po sd : option string) (doc : App3.Invoice) (tq ta : Py.num),
     App3.generate_proforma_invoice engine now df pi po sd = Ok (doc, tq, ta) ->
     length (App3.table doc) = (length (rows df) + 2)%nat
     /\ Forall (fun row => length row = 9%nat) (App3.table doc))
  /\ (forall (df : DataFrame) (pi d cpo : string) (doc : App6.Invoice),
        App6.generate_proforma_invoice df pi d cpo = Ok doc ->
        Forall (fun row => length row = 9%nat) (App6.table_data doc))
  /\ (forall (fmt : Q -> string) (df : DataFrame) (pi d cpo : string) (doc : App7.Invoice),
        App7.generate_html_invoice fmt df pi d cpo = Ok doc ->
        Forall (fun row => length row = 9%nat) (App7.table_rows doc)
        /\ length (App7.total_row doc) = 4%nat).
Proof.
  split; [|split].
  - intros engine now df pi po sd doc tq ta H.
    destruct (generate3_table _ _ _ _ _ _ _ _ _ H) as [Ht _]. rewrite Ht. split.
    + simpl. rewrite length_app, length_map. simpl. lia.
    + constructor; [reflexivity|]. apply Forall_app. split.
      * apply Forall_forall. intros row Hrow. apply in_map_iff in Hrow.
        destruct Hrow as [r [<- _]]. reflexivity.
      * constructor; [reflexivity|constructor].
  - intros df pi d cpo doc H. unfold App6.generate_proforma_invoice in H.
    destruct (App6.process_excel_data df) as [out|e]; cbn [bind] in H; [|discriminate].
    destruct (App6.loop _ (rows out)) as [acc|e] eqn:El; cbn [bind] in H; [|discriminate].
    inversion H. cbn [App6.table_data].
    constructor; [reflexivity|]. apply Forall_app. split.
    + apply (loop6_cells _ _ _ El). constructor.
    + constructor; [reflexivity|constructor].
  - intros fmt df pi d cpo doc H. unfold App7.generate_html_invoice in H.
    destruct (App7.process_excel_data df) as [out|e]; cbn [bind] in H; [|discriminate].
    destruct (App7.for_rows (rows out)) as [trs|e] eqn:Er; cbn [bind] in H; [|discriminate].
    inversion H. cbn [App7.table_rows App7.total_row]. split; [|reflexivity].
    apply (for_rows7_cells _ _ Er).
Qed.

Lemma X11_tables_are_rectangular_witness :
  exists doc tq ta,
    App3.generate_proforma_invoice Samples.engine_fault Samples.morning
      Samples.split_amount None None None = Ok (doc, tq, ta)
    /\ length (App3.table doc) = 4%nat.
Proof.
  eexists. eexists. eexists. split; [reflexivity|].
  exact (proj1 (proj1 X11_tables_are_rectangular
                  Samples.engine_fault Samples.morning Samples.split_amount
                  None None None _ _ _ eq_refl)).
Defined.

Module CharFacts.
Import Py Pandas Notions Reading PyFacts.

Lemma prefix_empty (s : string) : prefix "" s = true.
Proof. destruct s; reflexivity. Qed.

(** Replacing a one-character text replaces each occurrence of the
    character. *)
Lemma replace_char (c : ascii) (new s : string) :
  replace (String c "") new s = substitute c new s.
Proof.
  unfold replace. induction s as [|c' s IH]; [reflexivity|].
  cbn [replace_from substitute prefix String.length Nat.sub].
  destruct (ascii_dec c c') as [->|Hne].
  - rewrite prefix_empty, Ascii.eqb_refl, IH. reflexivity.
  - destruct (Ascii.eqb_spec c c'); [contradiction|]. rewrite IH. reflexivity.
Qed.

Lemma has_char_app (c : ascii) (a b : string) :
  has_char c (a ++ b) = (has_char c a || has_char c b)%bool.
Proof.
  induction a as [|x a IH]; simpl; [reflexivity|]. rewrite IH. apply orb_assoc.
Qed.

Lemma substitute_removes (c : ascii) (new s : string) :
  has_char c new = false -> has_char c (substitute c new s) = false.
Proof.
  intros Hn. induction s as [|c' s IH]; simpl; [reflexivity|].
  destruct (Ascii.eqb c c') eqn:E.
  - rewrite has_char_app, Hn, IH. reflexivity.
  - simpl. rewrite E, IH. reflexivity.
Qed.

Lemma substitute_absent (c : ascii) (new s : string) :
  has_char c s = false -> substitute c new s = s.
Proof.
  induction s as [|c' s IH]; simpl; [reflexivity|].
  intros H. apply orb_false_iff in H. destruct H as [H1 H2].
  rewrite H1, (IH H2). reflexivity.
Qed.

Lemma digits_without (c : ascii) (s : string) :
  is_digit c = false -> all_digits s = true -> has_char c s = false.
Proof.
  intros Hc. induction s as [|x s IH]; simpl; [reflexivity|].
  intros H. apply andb_true_iff in H. destruct H as [Hx Hs].
  rewrite (IH Hs), orb_false_r.
  destruct (Ascii.eqb_spec c x); [subst; congruence|reflexivity].
Qed.

Lemma two_digits_without (c : ascii) (n : Z) :
  is_digit c = false -> has_char c (two_digits n) = false.
Proof.
  intros Hc. unfold two_digits. rewrite has_char_app.
  rewrite (digits_without c (digits n) Hc (digits_all n)), orb_false_r.
  destruct (n <? 10)%Z; [|reflexivity].
  apply (digits_without c "0" Hc). reflexivity.
Qed.

(** A date written by [strftime('%d-%m-%Y')] has no slash. *)
Lemma strftime_without_slash (t : App3.datetime) :
  has_char "/" (App3.strftime_dmY t) = false.
Proof.
  unfold App3.strftime_dmY.
  rewrite !has_char_app, !two_digits_without by reflexivity.
  rewrite (digits_without "/" (digits (App3.year t)) eq_refl (digits_all _)).
  reflexivity.
Qed.

End CharFacts.

Import CharFacts.

(** X12.  The HS-code cell printed by [3app.py] never contains a dot: it is
    the code of the sheet with every dot removed, the code itself when it has
    no dot, and 61112000 when the frame has no [HS Code] column or the cell
    is missing. *)
Theorem X12_hs_code_has_no_dot (df : DataFrame) (r : Row) :
  has_char "." (nth 3 (App3.table_row df r) "") = false
  /\ (forall s, has_column df "HS Code" = true -> text r "HS Code" = Some s ->
        nth 3 (App3.table_row df r) "" = substitute "." "" s
        /\ (has_char "." s = false -> nth 3 (App3.table_row df r) "" = s))
  /\ (has_column df "HS Code" = false \/ text r "HS Code" = None ->
      nth 3 (App3.table_row df r) "" = "61112000").
Proof.
  unfold App3.table_row. cbn [nth]. split; [|split].
  - rewrite (replace_char "." "" _). apply substitute_removes. reflexivity.
  - intros s Hc Hs. unfold App3.text_or. rewrite Hc, Hs.
    rewrite (replace_char "." "" s). split; [reflexivity|].
    apply substitute_absent.
  - intros H. unfold App3.text_or.
    destruct (has_column df "HS Code"); [|reflexivity].
    destruct H as [H|H]; [discriminate|]. rewrite H. reflexivity.
Qed.

Lemma X12_hs_code_has_no_dot_witness :
  has_column (mkDF ["HS Code"] []) "HS Code" = true
  /\ nth 3 (App3.table_row (mkDF ["HS Code"] [])
              (mkRow (fun c => if String.eqb c "HS Code" then Some "6111.20" else None)
                     (fun _ => None))) ""
     = "611120".
Proof.
  split; [reflexivity|].
  exact (proj1 (proj1 (proj2 (X12_hs_code_has_no_dot
                                (mkDF ["HS Code"] [])
                                (mkRow (fun c => if String.eqb c "HS Code"
                                                 then Some "6111.20" else None)
                                       (fun _ => None))))
                      "6111.20" eq_refl eq_refl)).
Defined.

(** X13.  The names of the files offered for download contain no slash,
    whatever PI number is typed: each slash of the PI number is replaced by
    an underscore and the date is written with dashes. *)
Theorem X13_download_names_have_no_slash
    (pi_number : string) (now day : App3.datetime) :
  has_char "/" (Main3.file_name now pi_number ++ ".pdf") = false
  /\ has_char "/" (Main6.file_name pi_number (App3.strftime_dmY day)) = false
  /\ has_char "/" (Main7.file_name pi_number (App3.strftime_dmY day)) = false
  /\ (has_char "/" pi_number = false ->
      Main7.file_name pi_number (App3.strftime_dmY day)
      = "PI_" ++ pi_number ++ "_" ++ App3.strftime_dmY day ++ ".html").
Proof.
  unfold Main3.file_name, Main6.file_name, Main7.file_name.
  rewrite (replace_char "/" "_" pi_number).
  rewrite !has_char_app, !strftime_without_slash.
  rewrite (substitute_removes "/" "_" pi_number eq_refl).
  repeat split.
  intros H. rewrite (substitute_absent "/" "_" pi_number H). reflexivity.
Qed.

Lemma X13_download_names_have_no_slash_witness :
  has_char "/" "SAR_LG_0148" = false
  /\ Main7.file_name "SAR_LG_0148" (App3.strftime_dmY Samples.morning)
     = "PI_SAR_LG_0148_04-11-2026.html".
Proof.
  split; [reflexivity|].
  exact (proj2 (proj2 (proj2 (X13_download_names_have_no_slash
                                "SAR_LG_0148" Samples.morning Samples.morning)))
               eq_refl).
Defined.

Module AliasRowFacts.
Import Py Pandas Notions Reading PandasFacts AggregationFacts AliasFacts.

(** The renaming step moves the cells of each source column that the sheet
    has to the label it is renamed to. *)
Lemma rename_columns_cells (df : DataFrame) :
  exists f,
    rows (App3.rename_columns df) = map f (rows df)
    /\ forall old new, In (old, new) App3.column_mapping ->
         has_column df old = true ->
         forall r, text (f r) new = text r old /\ num (f r) new = num r old.
Proof.
  unfold App3.rename_columns, App3.column_mapping. cbn [fold_left fst snd].
  destruct (has_column df "Style") eqn:E1,
    (has_column df "Description") eqn:E2,
    (has_column df "Material Composition") eqn:E3,
    (has_column df "USD FOB$") eqn:E4,
    (has_column df "Total Qty") eqn:E5,
    (has_column df "Total Value") eqn:E6;
    (eexists; split;
     [unfold rename; cbn [rows]; rewrite ?map_map;
      first [reflexivity | symmetry; apply map_id]
     |intros old new Hin Hhas r; simpl in Hin;
      repeat (destruct Hin as [Hin|Hin];
              [injection Hin as <- <-;
               first [congruence | split; reflexivity]|]);
      destruct Hin]).
Qed.

(** The default columns leave the other cells of the rows alone. *)
Lemma add_defaults_rows (g : DataFrame) :
  exists h,
    rows (App3.add_defaults g) = map h (rows g)
    /\ forall r c,
         c <> "Fabric Type" -> c <> "HS Code" -> c <> "Country of Origin" ->
         text (h r) c = text r c /\ num (h r) c = num r c.
Proof.
  unfold App3.add_defaults, App3.required_columns. cbn [fold_left fst snd].
  repeat match goal with
         | |- context [if ?b then _ else _] => destruct b
         end;
    (eexists; split;
     [unfold assign_text; cbn [rows]; rewrite ?map_map;
      try reflexivity; symmetry; apply map_id
     |intros r c H1 H2 H3; cbn;
      repeat match goal with
             | |- context [String.eqb c ?l] =>
                 destruct (String.eqb_spec c l); [contradiction|]
             end;
      split; reflexivity]).
Qed.

Lemma keys_of_map (key key' : string) (f : Row -> Row) (rs : list Row) :
  (forall r, text (f r) key' = text r key) ->
  keys_of key' (map f rs) = keys_of key rs.
Proof.
  intros Hf. induction rs as [|r rs IH]; simpl; [reflexivity|].
  rewrite Hf, IH. reflexivity.
Qed.



(** The rows of the frame returned on the aggregating branch, in terms of
    the sheet. *)
Lemma process3_rows (df out : DataFrame) (msgs : list string) :
  App3.process_excel_data df = Ok (out, msgs) ->
  has_column df "Style" = true ->
  exists (f h : Row -> Row) (existing : list (string * aggfn)),
    existing = filter (fun kv => has_column (App3.rename_columns df) (fst kv))
                      App3.agg_functions
    /\ rows out
       = map (fun k => h (agg_row "StyleID" existing (map f (rows df)) k))
             (sorted_unique (keys_of "Style" (rows df)))
    /\ (forall old new, In (old, new) App3.column_mapping ->
          has_column df old = true ->
          forall r, text (f r) new = text r old /\ num (f r) new = num r old)
    /\ (forall r c,
          c <> "Fabric Type" -> c <> "HS Code" -> c <> "Country of Origin" ->
          text (h r) c = text r c /\ num (h r) c = num r c).
Proof.
  intros H Hs.
  assert (Hcol : has_column (App3.rename_columns df) "StyleID" = true).
  { unfold App3.rename_columns, App3.column_mapping. cbn [fold_left fst snd].
    rewrite Hs. pose proof (has_rename_new "Style" "StyleID" df Hs) as H1.
    destruct (has_column df "Description"), (has_column df "Material Composition"),
      (has_column df "USD FOB$"), (has_column df "Total Qty"),
      (has_column df "Total Value"); kept H1. }
  destruct (process3_ok df out msgs H Hcol) as [_ [g [Hg ->]]].
  apply groupby_agg_ok in Hg. subst g.
  destruct (rename_columns_cells df) as [f [Hrows Hf]].
  destruct (add_defaults_rows
              (mkDF ("StyleID" :: map fst (filter (fun kv => has_column (App3.rename_columns df) (fst kv)) App3.agg_functions))
                 (map (agg_row "StyleID" (filter (fun kv => has_column (App3.rename_columns df) (fst kv)) App3.agg_functions)
                         (rows (App3.rename_columns df)))
                      (sorted_unique (keys_of "StyleID" (rows (App3.rename_columns df)))))))
    as [h [Hh1 Hh2]].
  exists f, h. eexists. split; [reflexivity|].
  split; [|split; [exact Hf|exact Hh2]].
  rewrite Hh1. cbn [rows]. rewrite map_map, Hrows.
  rewrite (keys_of_map "Style" "StyleID" f)
    by (intros r; apply (Hf "Style" "StyleID"); [left; reflexivity|exact Hs]).
  reflexivity.
Qed.

End AliasRowFacts.

Import AliasRowFacts.

(** X14.  For a sheet with a [Style] column, the rows aggregated by
    [3app.py] come in ascending order of style, one row for each style of the
    sheet, whatever the order of the sheet. *)
Theorem X14_alias_rows_ascending_by_style
    (df out : DataFrame) (msgs : list string) :
  has_column df "Style" = true ->
  has_column df "StyleID" = false ->
  App3.process_excel_data df = Ok (out, msgs) ->
  exists ks,
    styles "StyleID" (rows out) = map Some ks
    /\ StronglySorted str_lt ks
    /\ (forall k, In k ks <-> exists r, In r (rows df) /\ text r "Style" = Some k)
    /\ length (rows out) = length ks.
Proof.
  intros Hs _ H.
  destruct (process3_rows df out msgs H Hs) as [f [h [existing [_ [Hrows [_ Hh]]]]]].
  exists (sorted_unique (keys_of "Style" (rows df))).
  split; [|split; [|split]].
  - unfold styles. rewrite Hrows, map_map. apply map_ext. intros k.
    rewrite (proj1 (Hh _ "StyleID" ltac:(discriminate) ltac:(discriminate)
                      ltac:(discriminate))).
    simpl. reflexivity.
  - apply sorted_unique_sorted.
  - intros k. rewrite sorted_unique_in. apply keys_of_in.
  - rewrite Hrows. apply length_map.
Qed.

Lemma X14_alias_rows_ascending_by_style_witness :
  exists out ks,
    App3.process_excel_data Samples.missing_style3 = Ok (out, [])
    /\ styles "StyleID" (rows out) = map Some ks
    /\ StronglySorted str_lt ks
    /\ length (rows out) = length ks.
Proof.
  eexists.
  destruct (X14_alias_rows_ascending_by_style Samples.missing_style3 _ []
              eq_refl eq_refl eq_refl) as [ks [Hk [Hs [_ Hl]]]].
  exists ks. split; [reflexivity|]. split; [exact Hk|]. split; assumption.
Defined.



Module CaseFacts.
Import Py Pandas Notions Reading PyFacts.


Lemma upper_app (a b : string) : upper (a ++ b) = upper a ++ upper b.
Proof. induction a as [|c a IH]; simpl; [reflexivity|]. rewrite IH. reflexivity. Qed.










End CaseFacts.

Import CaseFacts.


